(** * Detection post-processing pipeline: the orchestration of
      [plugin/common/kernels/detectionForward.cu]

    The file embeds [detectionInference], the host function that wires the
    SSD detection-output stages together: it slices one workspace buffer
    into sub-buffers and launches, in order, the box decoder, the layout
    permutations, the per-class sort, the NMS, the per-image sort and the
    final gather, giving up at the first stage that does not succeed.

    The stages themselves, the byte-size helpers and [nextWorkspacePtr] are
    declared in headers and defined in other translation units; they enter
    the development as the variables of a section, so that every statement
    about the orchestration holds for whatever they compute. *)

From Stdlib Require Import ZArith NArith List Bool Lia Sorted.
From Stdlib.Strings Require Import Byte.
From Stdlib Require Import Floats.SpecFloat.
Import ListNotations.

Open Scope Z_scope.

(** ** Machine integers

    [int] is a 32-bit two's complement integer; products are wrapped into
    its range. [size_t] and addresses are unsigned and are kept in [N]. *)

Definition wrap_int (z : Z) : Z := (z + 2 ^ 31) mod 2 ^ 32 - 2 ^ 31.

Definition in_int (z : Z) : Prop := - 2 ^ 31 <= z < 2 ^ 31.

Definition int_mul (a b : Z) : Z := wrap_int (a * b).

Definition size_t := N.

(** Addresses held in [void*], [const void*] and [int8_t*] variables. *)
Definition ptr := N.

(** The handle of the stream the kernels are queued on. *)
Definition cudaStream_t := N.

(** ** Single-precision constants

    [float] values are IEEE binary32 numbers, written with the Standard
    Library's [spec_float]: sign, 24-bit mantissa, exponent. *)

Definition float := spec_float.

(** [0.f] *)
Definition float_zero : float := S754_zero false.

(** [1.f], that is 2^23 * 2^-23 *)
Definition float_one : float := S754_finite false 8388608 (-23).

(** ** Enumerations *)

(** Modelled from the spec: [DataType] comes from NvInfer.h, which is not
    part of the sources; the spec gives the box and score precisions as
    FLOAT32 and FLOAT16, the source names the latter [DataType::kHALF]. *)
Inductive DataType : Type :=
| kFLOAT
| kHALF.

Definition DataType_eqb (a b : DataType) : bool :=
  match a, b with
  | kFLOAT, kFLOAT | kHALF, kHALF => true
  | _, _ => false
  end.

(** Modelled from the spec: [CodeTypeSSD] comes from the plugin headers,
    which are not part of the sources; the spec lists CORNER, CENTER_SIZE
    and CORNER_SIZE. *)
Inductive CodeTypeSSD : Type :=
| CORNER
| CENTER_SIZE
| CORNER_SIZE.

(** Modelled from the spec: [pluginStatus_t] is declared in the plugin
    headers, which are not part of the sources. The spec speaks of a
    success code, a generic failure code and specific codes for
    configuration errors; the source names [STATUS_SUCCESS]. *)
Inductive pluginStatus_t : Type :=
| STATUS_SUCCESS
| STATUS_FAILURE
| STATUS_BAD_PARAM
| STATUS_NOT_SUPPORTED.

Definition status_eqb (a b : pluginStatus_t) : bool :=
  match a, b with
  | STATUS_SUCCESS, STATUS_SUCCESS
  | STATUS_FAILURE, STATUS_FAILURE
  | STATUS_BAD_PARAM, STATUS_BAD_PARAM
  | STATUS_NOT_SUPPORTED, STATUS_NOT_SUPPORTED => true
  | _, _ => false
  end.

(** ** Stage launches

    One constructor per stage function, carrying the arguments in the
    order of the call sites of [detectionInference]. *)
Inductive StageCall : Type :=
| decodeBBoxes
    (stream : cudaStream_t) (nthreads : Z) (code_type : CodeTypeSSD)
    (variance_encoded_in_target : bool) (num_priors : Z)
    (share_location : bool) (num_loc_classes : Z)
    (background_label_id : Z) (clip_bbox : bool) (DT_BBOX : DataType)
    (loc_data prior_data bbox_data : ptr) (batch_agnostic : bool)
| permuteData
    (stream : cudaStream_t) (nthreads : Z) (num_classes num_data num_dim : Z)
    (DT_DATA : DataType) (confSigmoid : bool) (data new_data : ptr)
| sortScoresPerClass
    (stream : cudaStream_t) (num : Z) (num_classes num_preds_per_class : Z)
    (background_label_id : Z) (confidence_threshold : float)
    (DT_SCORE : DataType) (conf_scores_gpu index_array_gpu workspace : ptr)
    (score_bits : Z) (score_shift : float)
| allClassNMS
    (stream : cudaStream_t) (num : Z) (num_classes num_preds_per_class : Z)
    (top_k : Z) (nms_threshold : float) (share_location isNormalized : bool)
    (DT_SCORE DT_BBOX : DataType)
    (bbox_data beforeNMS_scores beforeNMS_index_array : ptr)
    (afterNMS_scores afterNMS_index_array : ptr)
    (flipXY : bool) (score_shift : float) (caffeSemantics : bool)
| sortScoresPerImage
    (stream : cudaStream_t) (num_images num_items_per_image : Z)
    (DT_SCORE : DataType)
    (unsorted_scores unsorted_bbox_indices : ptr)
    (sorted_scores sorted_bbox_indices workspace : ptr) (score_bits : Z)
| gatherTopDetections
    (stream : cudaStream_t) (share_location : bool)
    (num_images num_preds_per_class num_classes top_k keep_top_k : Z)
    (DT_BBOX DT_SCORE : DataType)
    (indices scores bbox_data keep_count top_detections : ptr)
    (score_shift : float).

(** The stages as the spec names them; [permuteData] serves two of them. *)
Inductive Stage : Type :=
| Decode
| PermuteBoxes
| PermuteScores
| SortPerClass
| NMS
| SortPerImage
| Gather.

(** A [permuteData] launch on 4-element items is the box permutation, any
    other is the score permutation. *)
Definition stage_of (c : StageCall) : Stage :=
  match c with
  | decodeBBoxes _ _ _ _ _ _ _ _ _ _ _ _ _ _ => Decode
  | permuteData _ _ _ _ num_dim _ _ _ _ =>
      if Z.eqb num_dim 4 then PermuteBoxes else PermuteScores
  | sortScoresPerClass _ _ _ _ _ _ _ _ _ _ _ _ => SortPerClass
  | allClassNMS _ _ _ _ _ _ _ _ _ _ _ _ _ _ _ _ _ _ => NMS
  | sortScoresPerImage _ _ _ _ _ _ _ _ _ _ => SortPerImage
  | gatherTopDetections _ _ _ _ _ _ _ _ _ _ _ _ _ _ _ => Gather
  end.



(** The [clipBBox] flag of a decoder launch. *)
Definition clip_flag (c : StageCall) : option bool :=
  match c with
  | decodeBBoxes _ _ _ _ _ _ _ _ clip_bbox _ _ _ _ _ => Some clip_bbox
  | _ => None
  end.

(** The element count, the prior count and the location-class count of a
    decoder launch. *)
Definition decode_counts (c : StageCall) : option (Z * Z * Z) :=
  match c with
  | decodeBBoxes _ nthreads _ _ num_priors _ num_loc_classes _ _ _ _ _ _ _ =>
      Some (nthreads, num_priors, num_loc_classes)
  | _ => None
  end.

(** The [scoreShift] argument of the stages that take one. *)
Definition shift_arg (c : StageCall) : option float :=
  match c with
  | sortScoresPerClass _ _ _ _ _ _ _ _ _ _ _ score_shift => Some score_shift
  | allClassNMS _ _ _ _ _ _ _ _ _ _ _ _ _ _ _ _ score_shift _ =>
      Some score_shift
  | gatherTopDetections _ _ _ _ _ _ _ _ _ _ _ _ _ _ score_shift =>
      Some score_shift
  | _ => None
  end.

(** ** Host-side execution

    A host computation threads the device state and the log of the launches
    made so far; it either goes on with a value or has executed a [return]. *)

Inductive Outcome (A : Type) : Type :=
| Returned (s : pluginStatus_t)
| Running (a : A).

Arguments Returned {A} s.
Arguments Running {A} a.

Section Host.

(** Device memory and stream state, as the kernels see it. *)
Variable Device : Type.

(** What launching a stage does: the status it reports and the device
    state it leaves. *)
Variable run : StageCall -> Device -> pluginStatus_t * Device.

Record World : Type := mkWorld {
  device : Device;
  launched : list (StageCall * pluginStatus_t)
}.

Definition Host (A : Type) : Type := World -> Outcome A * World.

Definition ret {A : Type} (a : A) : Host A := fun w => (Running a, w).

Definition bind {A B : Type} (m : Host A) (k : A -> Host B) : Host B :=
  fun w =>
    match m w with
    | (Returned s, w') => (Returned s, w')
    | (Running a, w') => k a w'
    end.

Definition return_ {A : Type} (s : pluginStatus_t) : Host A :=
  fun w => (Returned s, w).

(** A stage call: the kernel runs on the device and the call is logged
    with the status it gave. *)
Definition launch (c : StageCall) : Host pluginStatus_t :=
  fun w =>
    let (s, d) := run c (device w) in
    (Running s, mkWorld d (launched w ++ [(c, s)])).

(** Modelled from the spec: the macro [ASSERT_FAILURE] is defined in the
    plugin headers, which are not part of the sources. Following the
    spec's propagation policy it leaves the function at once with the
    failure status when its condition is false. *)
Definition ASSERT_FAILURE (exp : bool) : Host unit :=
  fun w => if exp then (Running tt, w) else (Returned STATUS_FAILURE, w).

(** The status a finished host function hands to its caller. *)
Definition exit_status (o : Outcome pluginStatus_t) : pluginStatus_t :=
  match o with
  | Returned s => s
  | Running s => s
  end.

End Host.

Arguments mkWorld {Device} device launched.
Arguments device {Device} w.
Arguments launched {Device} w.
Arguments ret {Device A} a w.
Arguments bind {Device A B} m k w.
Arguments return_ {Device A} s w.
Arguments launch {Device} run c w.
Arguments ASSERT_FAILURE {Device} exp w.

Declare Scope host_scope.
Delimit Scope host_scope with host.
Notation "x <- m ;; k" := (bind m (fun x => k))
  (at level 61, m at next level, right associativity) : host_scope.
Notation "m ;;; k" := (bind m (fun _ => k))
  (at level 61, right associativity) : host_scope.

(** ** The orchestration *)

Section Pipeline.

Variable Device : Type.
Variable run : StageCall -> Device -> pluginStatus_t * Device.

(** The byte-size helpers and the pointer stepping of the plugin's
    common code; their definitions are not part of the sources. *)
Variable detectionForwardBBoxDataSize : Z -> Z -> DataType -> size_t.
Variable detectionForwardBBoxPermuteSize : bool -> Z -> Z -> DataType -> size_t.
Variable detectionForwardPreNMSSize : Z -> Z -> size_t.
Variable detectionForwardPostNMSSize : Z -> Z -> Z -> size_t.
Variable nextWorkspacePtr : ptr -> size_t -> ptr.

(** *** Values computed on the host *)

Definition locCount (N C1 : Z) : Z := int_mul N C1.

Definition clipBBox : bool := false.

Definition numLocClasses (shareLocation : bool) (numClasses : Z) : Z :=
  if shareLocation then 1 else numClasses.

Definition numScores (N C2 : Z) : Z := int_mul N C2.

Definition scoresSize (N C2 : Z) (DT_SCORE : DataType) : size_t :=
  let scoresSize := detectionForwardPreNMSSize N C2 in
  if DataType_eqb DT_SCORE kHALF then (scoresSize / 2)%N else scoresSize.

Definition indicesSize (N C2 : Z) : size_t :=
  detectionForwardPreNMSSize N C2.

Definition postNMSScoresSize (N numClasses topK : Z) (DT_SCORE : DataType)
  : size_t :=
  let postNMSScoresSize := detectionForwardPostNMSSize N numClasses topK in
  if DataType_eqb DT_SCORE kHALF then (postNMSScoresSize / 2)%N
  else postNMSScoresSize.

Definition postNMSIndicesSize (N numClasses topK : Z) : size_t :=
  detectionForwardPostNMSSize N numClasses topK.

Definition scoreShift (DT_SCORE : DataType) (scoreBits : Z) : float :=
  if DataType_eqb DT_SCORE kHALF && (0 <? scoreBits) && (scoreBits <=? 10)
  then float_one else float_zero.

(** *** The workspace pointers, in the order they are derived *)

Record Layout : Type := mkLayout {
  bboxDataRaw : ptr;
  bboxPermute : ptr;
  scores : ptr;
  indices : ptr;
  postNMSScores : ptr;
  postNMSIndices : ptr;
  sortingWorkspace : ptr
}.

Definition layout (workspace : ptr) (N C1 C2 : Z) (shareLocation : bool)
    (numClasses topK : Z) (DT_BBOX DT_SCORE : DataType) : Layout :=
  let bboxDataSize := detectionForwardBBoxDataSize N C1 DT_BBOX in
  let bboxDataRaw := workspace in
  let bboxPermuteSize :=
    detectionForwardBBoxPermuteSize shareLocation N C1 DT_BBOX in
  let bboxPermute := nextWorkspacePtr bboxDataRaw bboxDataSize in
  let scores := nextWorkspacePtr bboxPermute bboxPermuteSize in
  let indices := nextWorkspacePtr scores (scoresSize N C2 DT_SCORE) in
  let postNMSScores := nextWorkspacePtr indices (indicesSize N C2) in
  let postNMSIndices :=
    nextWorkspacePtr postNMSScores
      (postNMSScoresSize N numClasses topK DT_SCORE) in
  let sortingWorkspace :=
    nextWorkspacePtr postNMSIndices (postNMSIndicesSize N numClasses topK) in
  mkLayout bboxDataRaw bboxPermute scores indices postNMSScores
    postNMSIndices sortingWorkspace.

(** *** [detectionInference] *)

Open Scope host_scope.

Definition detectionInference_body
    (stream : cudaStream_t) (N C1 C2 : Z) (shareLocation : bool)
    (varianceEncodedInTarget : bool) (backgroundLabelId : Z)
    (numPredsPerClass numClasses topK keepTopK : Z)
    (confidenceThreshold nmsThreshold : float) (codeType : CodeTypeSSD)
    (DT_BBOX : DataType) (locData priorData : ptr) (DT_SCORE : DataType)
    (confData keepCount topDetections workspace : ptr)
    (isNormalized confSigmoid : bool) (scoreBits : Z)
    (isBatchAgnostic : bool) : Host Device pluginStatus_t :=
  let locCount := locCount N C1 in
  let clipBBox := clipBBox in
  let numLocClasses := numLocClasses shareLocation numClasses in
  let bboxDataSize := detectionForwardBBoxDataSize N C1 DT_BBOX in
  let bboxDataRaw := workspace in
  status <- launch run
    (decodeBBoxes stream locCount codeType varianceEncodedInTarget
       numPredsPerClass shareLocation numLocClasses backgroundLabelId
       clipBBox DT_BBOX locData priorData bboxDataRaw isBatchAgnostic) ;;
  ASSERT_FAILURE (status_eqb status STATUS_SUCCESS) ;;;
  let bboxPermuteSize :=
    detectionForwardBBoxPermuteSize shareLocation N C1 DT_BBOX in
  let bboxPermute := nextWorkspacePtr bboxDataRaw bboxDataSize in
  bboxData <-
    (if negb shareLocation
     then
       status <- launch run
         (permuteData stream locCount numLocClasses numPredsPerClass 4
            DT_BBOX false bboxDataRaw bboxPermute) ;;
       ASSERT_FAILURE (status_eqb status STATUS_SUCCESS) ;;;
       ret bboxPermute
     else ret bboxDataRaw) ;;
  let numScores := numScores N C2 in
  let scoresSize := scoresSize N C2 DT_SCORE in
  let scores := nextWorkspacePtr bboxPermute bboxPermuteSize in
  status <- launch run
    (permuteData stream numScores numClasses numPredsPerClass 1 DT_SCORE
       confSigmoid confData scores) ;;
  ASSERT_FAILURE (status_eqb status STATUS_SUCCESS) ;;;
  let indicesSize := indicesSize N C2 in
  let indices := nextWorkspacePtr scores scoresSize in
  let postNMSScoresSize := postNMSScoresSize N numClasses topK DT_SCORE in
  let postNMSIndicesSize := postNMSIndicesSize N numClasses topK in
  let postNMSScores := nextWorkspacePtr indices indicesSize in
  let postNMSIndices := nextWorkspacePtr postNMSScores postNMSScoresSize in
  let sortingWorkspace :=
    nextWorkspacePtr postNMSIndices postNMSIndicesSize in
  let scoreShift := scoreShift DT_SCORE scoreBits in
  status <- launch run
    (sortScoresPerClass stream N numClasses numPredsPerClass
       backgroundLabelId confidenceThreshold DT_SCORE scores indices
       sortingWorkspace scoreBits scoreShift) ;;
  ASSERT_FAILURE (status_eqb status STATUS_SUCCESS) ;;;
  status <- launch run
    (allClassNMS stream N numClasses numPredsPerClass topK nmsThreshold
       shareLocation isNormalized DT_SCORE DT_BBOX bboxData scores indices
       postNMSScores postNMSIndices false scoreShift true) ;;
  ASSERT_FAILURE (status_eqb status STATUS_SUCCESS) ;;;
  status <- launch run
    (sortScoresPerImage stream N (int_mul numClasses topK) DT_SCORE
       postNMSScores postNMSIndices scores indices sortingWorkspace
       scoreBits) ;;
  ASSERT_FAILURE (status_eqb status STATUS_SUCCESS) ;;;
  status <- launch run
    (gatherTopDetections stream shareLocation N numPredsPerClass numClasses
       topK keepTopK DT_BBOX DT_SCORE indices scores bboxData keepCount
       topDetections scoreShift) ;;
  ASSERT_FAILURE (status_eqb status STATUS_SUCCESS) ;;;
  return_ STATUS_SUCCESS.

Close Scope host_scope.

(** The function as its caller sees it: the status returned and the
    device state and launch log it leaves behind. *)
Definition detectionInference
    (stream : cudaStream_t) (N C1 C2 : Z) (shareLocation : bool)
    (varianceEncodedInTarget : bool) (backgroundLabelId : Z)
    (numPredsPerClass numClasses topK keepTopK : Z)
    (confidenceThreshold nmsThreshold : float) (codeType : CodeTypeSSD)
    (DT_BBOX : DataType) (locData priorData : ptr) (DT_SCORE : DataType)
    (confData keepCount topDetections workspace : ptr)
    (isNormalized confSigmoid : bool) (scoreBits : Z)
    (isBatchAgnostic : bool) (w : World Device)
  : pluginStatus_t * World Device :=
  let (o, w') :=
    detectionInference_body stream N C1 C2 shareLocation varianceEncodedInTarget
      backgroundLabelId numPredsPerClass numClasses topK keepTopK
      confidenceThreshold nmsThreshold codeType DT_BBOX locData priorData
      DT_SCORE confData keepCount topDetections workspace isNormalized
      confSigmoid scoreBits isBatchAgnostic w in
  (exit_status o, w').

(** *** A launch list run until the first failure

    The pointers handed to the stages do not depend on what the stages
    report, so the launches of one invocation can be listed beforehand;
    [run_until_failure] launches such a list the way the chain of
    [ASSERT_FAILURE]s does. The two are proved equal below. *)

Definition schedule
    (stream : cudaStream_t) (N C1 C2 : Z) (shareLocation : bool)
    (varianceEncodedInTarget : bool) (backgroundLabelId : Z)
    (numPredsPerClass numClasses topK keepTopK : Z)
    (confidenceThreshold nmsThreshold : float) (codeType : CodeTypeSSD)
    (DT_BBOX : DataType) (locData priorData : ptr) (DT_SCORE : DataType)
    (confData keepCount topDetections workspace : ptr)
    (isNormalized confSigmoid : bool) (scoreBits : Z)
    (isBatchAgnostic : bool) : list StageCall :=
  let L := layout workspace N C1 C2 shareLocation numClasses topK DT_BBOX
             DT_SCORE in
  let bboxData := if shareLocation then bboxDataRaw L else bboxPermute L in
  let shift := scoreShift DT_SCORE scoreBits in
  [decodeBBoxes stream (locCount N C1) codeType varianceEncodedInTarget
     numPredsPerClass shareLocation (numLocClasses shareLocation numClasses)
     backgroundLabelId clipBBox DT_BBOX locData priorData (bboxDataRaw L)
     isBatchAgnostic]
  ++ (if shareLocation then []
      else [permuteData stream (locCount N C1)
              (numLocClasses shareLocation numClasses) numPredsPerClass 4
              DT_BBOX false (bboxDataRaw L) (bboxPermute L)])
  ++ [permuteData stream (numScores N C2) numClasses numPredsPerClass 1
        DT_SCORE confSigmoid confData (scores L);
      sortScoresPerClass stream N numClasses numPredsPerClass
        backgroundLabelId confidenceThreshold DT_SCORE (scores L)
        (indices L) (sortingWorkspace L) scoreBits shift;
      allClassNMS stream N numClasses numPredsPerClass topK nmsThreshold
        shareLocation isNormalized DT_SCORE DT_BBOX bboxData (scores L)
        (indices L) (postNMSScores L) (postNMSIndices L) false shift true;
      sortScoresPerImage stream N (int_mul numClasses topK) DT_SCORE
        (postNMSScores L) (postNMSIndices L) (scores L) (indices L)
        (sortingWorkspace L) scoreBits;
      gatherTopDetections stream shareLocation N numPredsPerClass
        numClasses topK keepTopK DT_BBOX DT_SCORE (indices L) (scores L)
        bboxData keepCount topDetections shift].

Fixpoint run_until_failure (cs : list StageCall) (w : World Device)
  : pluginStatus_t * World Device :=
  match cs with
  | [] => (STATUS_SUCCESS, w)
  | c :: cs' =>
      let (s, d) := run c (device w) in
      let w' := mkWorld d (launched w ++ [(c, s)]) in
      if status_eqb s STATUS_SUCCESS then run_until_failure cs' w'
      else (STATUS_FAILURE, w')
  end.

End Pipeline.

(** What one invocation leaves in the log, read three ways. *)
Definition calls_of {Device : Type} (r : pluginStatus_t * World Device)
  : list StageCall := map fst (launched (snd r)).

Definition statuses_of {Device : Type} (r : pluginStatus_t * World Device)
  : list pluginStatus_t := map snd (launched (snd r)).

Definition stages_of {Device : Type} (r : pluginStatus_t * World Device)
  : list Stage := map stage_of (calls_of r).

(** The stage order of the spec's state machine. *)
Definition pipeline_order (shareLocation : bool) : list Stage :=
  [Decode] ++ (if shareLocation then [] else [PermuteBoxes])
  ++ [PermuteScores; SortPerClass; NMS; SortPerImage; Gather].

(** How a launch list run until the first failure ends: either every launch
    succeeded, or the log stops at the first launch that did not. *)
Inductive Halted (cs : list StageCall)
  : pluginStatus_t -> list (StageCall * pluginStatus_t) -> Prop :=
| all_succeeded :
    Halted cs STATUS_SUCCESS (map (fun c => (c, STATUS_SUCCESS)) cs)
| failed_at (pre : list StageCall) (c : StageCall) (s : pluginStatus_t)
    (post : list StageCall) :
    cs = pre ++ c :: post ->
    s <> STATUS_SUCCESS ->
    Halted cs STATUS_FAILURE
      (map (fun c => (c, STATUS_SUCCESS)) pre ++ [(c, s)]).


(** ** The stages behind NMS, per-image sort and gather

    The kernels launched by [detectionInference] live in other files of the
    plugin. What the per-image detection count depends on is rebuilt here
    from their contracts, for one image. *)

Module SpecModel.

(** Modelled from the spec: the suppression record of the data model, a
    surviving candidate with its class, its index into the decoded-box
    array and its confidence score. *)
Record Detection : Type := mkDetection {
  det_class : nat;
  det_index : nat;
  det_score : float
}.

(** Modelled from the spec: the ranking used by both sorters, descending
    score and, between equal scores, ascending index. *)
Definition ranks_before (a b : Detection) : bool :=
  SFltb (det_score b) (det_score a)
  || (SFeqb (det_score a) (det_score b)
      && (det_index a <=? det_index b)%nat).

Fixpoint insert_ranked (d : Detection) (l : list Detection)
  : list Detection :=
  match l with
  | [] => [d]
  | e :: l' => if ranks_before d e then d :: l else e :: insert_ranked d l'
  end.

Definition rank (l : list Detection) : list Detection :=
  fold_right insert_ranked [] l.

Section NMSEngine.

(** The overlap test, intersection-over-union at or above [nmsThreshold];
    its arithmetic is the kernel's. *)
Variable overlaps : Detection -> Detection -> bool.

(** Modelled from the spec: the NMS kernel is not part of the sources.
    Greedy selection over one class in descending-score order: a candidate
    overlapping a retained box is suppressed, and selection stops once
    [topK] boxes have been retained. *)
Fixpoint greedy (topK : nat) (kept candidates : list Detection)
  : list Detection :=
  match candidates with
  | [] => kept
  | c :: rest =>
      if (topK <=? length kept)%nat then kept
      else if existsb (fun k => overlaps k c) kept
           then greedy topK kept rest
           else greedy topK (kept ++ [c]) rest
  end.

(** One image: the ranked candidate list of every class goes through the
    greedy selection on its own. *)
Definition allClassNMS_image (topK : nat) (ranked : list (list Detection))
  : list (list Detection) :=
  map (greedy topK []) ranked.

End NMSEngine.

(** Modelled from the spec: the per-image sort kernel is not part of the
    sources. It merges what every class retained and ranks the whole. *)
Definition sortScoresPerImage_image (retained : list (list Detection))
  : list Detection :=
  rank (concat retained).

(** Modelled from the spec: the gather kernel is not part of the sources.
    It takes the top [keepTopK] entries of the ranking, writes the count of
    valid detections and fills the records beyond it with a sentinel. *)
Definition gatherTopDetections_image (keepTopK : nat)
    (ranking : list Detection) : nat * list (option Detection) :=
  let top := firstn keepTopK ranking in
  (length top, map Some top ++ repeat None (keepTopK - length top)).

(** The three stages in a row, from the ranked candidates of each class to
    [keepCount] and [topDetections] of the image. *)
Definition detect_image (overlaps : Detection -> Detection -> bool)
    (topK keepTopK : nat) (ranked : list (list Detection))
  : nat * list (option Detection) :=
  gatherTopDetections_image keepTopK
    (sortScoresPerImage_image (allClassNMS_image overlaps topK ranked)).

End SpecModel.

(** ** A concrete setting

    An instance of what the orchestration leaves open, used to run the
    statements below on actual numbers: 4-byte and 2-byte elements,
    sub-buffers aligned to 256 bytes, and a device that counts the kernels
    it has run and lets all of them succeed but the one it is told to
    fail. *)

Module Sample.

Definition element_bytes (DT : DataType) : N :=
  match DT with
  | kFLOAT => 4
  | kHALF => 2
  end.

Definition bbox_data_size (N C1 : Z) (DT_BBOX : DataType) : size_t :=
  (Z.to_N (N * C1) * element_bytes DT_BBOX)%N.

Definition bbox_permute_size (shareLocation : bool) (N C1 : Z)
    (DT_BBOX : DataType) : size_t :=
  if shareLocation then 0%N else bbox_data_size N C1 DT_BBOX.

Definition pre_nms_size (N C2 : Z) : size_t := (Z.to_N (N * C2) * 4)%N.

Definition post_nms_size (N numClasses topK : Z) : size_t :=
  (Z.to_N (N * numClasses * topK) * 4)%N.

Definition align_up (addr : N) : N :=
  if (addr mod 256 =? 0)%N then addr else (addr + (256 - addr mod 256))%N.

Definition next_ptr (p : ptr) (previous : size_t) : ptr :=
  align_up (p + previous)%N.

(** The device state is the number of kernels run so far; the kernel
    numbered [failing] reports [STATUS_BAD_PARAM]. *)
Definition run_counting (failing : nat) (c : StageCall) (d : nat)
  : pluginStatus_t * nat :=
  (if Nat.eqb d failing then STATUS_BAD_PARAM else STATUS_SUCCESS, S d).






(** One invocation in this setting: a batch of 2 images, 3 classes, 4
    priors, boxes per class or shared, FLOAT16 scores with 8 score bits. *)
Definition invoke (failing : nat) (shareLocation : bool)
  : pluginStatus_t * World nat :=
  detectionInference nat (run_counting failing) bbox_data_size
    bbox_permute_size pre_nms_size post_nms_size next_ptr
    7%N 2 (if shareLocation then 16 else 48) 12 shareLocation false 0 4 3 2 5
    float_one float_one CENTER_SIZE kFLOAT 1000%N 2000%N kHALF 3000%N
    4000%N 5000%N 65536%N true false 8 false (mkWorld 0%nat []).

(** Three launches of [invoke] with shared boxes: the score permutation,
    the NMS and the per-image sort. *)
Definition score_permute_launch : StageCall :=
  permuteData 7%N 24 3 4 1 kHALF false 3000%N 65792%N.

Definition nms_launch : StageCall :=
  allClassNMS 7%N 2 3 4 2 float_one true true kHALF kFLOAT 65536%N 65792%N
    66048%N 66304%N 66560%N false float_one true.

Definition image_sort_launch : StageCall :=
  sortScoresPerImage 7%N 2 6 kHALF 66304%N 66560%N 65792%N 66048%N 66816%N 8.

(** Three candidates of one image, scored 3.0, 2.0 and 1.0, the first two of
    class 1 and the last of class 0; no two of them overlap. *)
Definition det_a : SpecModel.Detection :=
  SpecModel.mkDetection 1 0 (S754_finite false 12582912 (-22)).

Definition det_b : SpecModel.Detection :=
  SpecModel.mkDetection 1 3 (S754_finite false 8388608 (-22)).

Definition det_c : SpecModel.Detection :=
  SpecModel.mkDetection 0 2 float_one.

Definition ranked_candidates : list (list SpecModel.Detection) :=
  [[det_c]; [det_a; det_b]].

Definition never_overlaps (a b : SpecModel.Detection) : bool := false.

Definition always_overlaps (a b : SpecModel.Detection) : bool := true.

End Sample.

(** ** Reading the arguments of a launch

    Further views of a launch, by argument position at the call sites. *)

(** Every address a launch is handed, in argument order. *)
Definition pointer_args (c : StageCall) : list ptr :=
  match c with
  | decodeBBoxes _ _ _ _ _ _ _ _ _ _ loc_data prior_data bbox_data _ =>
      [loc_data; prior_data; bbox_data]
  | permuteData _ _ _ _ _ _ _ data new_data => [data; new_data]
  | sortScoresPerClass _ _ _ _ _ _ _ conf_scores_gpu index_array_gpu
      workspace _ _ => [conf_scores_gpu; index_array_gpu; workspace]
  | allClassNMS _ _ _ _ _ _ _ _ _ _ bbox_data beforeNMS_scores
      beforeNMS_index_array afterNMS_scores afterNMS_index_array _ _ _ =>
      [bbox_data; beforeNMS_scores; beforeNMS_index_array; afterNMS_scores;
       afterNMS_index_array]
  | sortScoresPerImage _ _ _ _ unsorted_scores unsorted_bbox_indices
      sorted_scores sorted_bbox_indices workspace _ =>
      [unsorted_scores; unsorted_bbox_indices; sorted_scores;
       sorted_bbox_indices; workspace]
  | gatherTopDetections _ _ _ _ _ _ _ _ _ indices scores bbox_data keep_count
      top_detections _ =>
      [indices; scores; bbox_data; keep_count; top_detections]
  end.

(** The (score buffer, index buffer) pairs of a launch, in argument order:
    one pair for the per-class sort and the gather, two for the NMS and the
    per-image sort. *)
Definition score_index_buffers (c : StageCall) : list (ptr * ptr) :=
  match c with
  | sortScoresPerClass _ _ _ _ _ _ _ conf_scores_gpu index_array_gpu _ _ _ =>
      [(conf_scores_gpu, index_array_gpu)]
  | allClassNMS _ _ _ _ _ _ _ _ _ _ _ beforeNMS_scores beforeNMS_index_array
      afterNMS_scores afterNMS_index_array _ _ _ =>
      [(beforeNMS_scores, beforeNMS_index_array);
       (afterNMS_scores, afterNMS_index_array)]
  | sortScoresPerImage _ _ _ _ unsorted_scores unsorted_bbox_indices
      sorted_scores sorted_bbox_indices _ _ =>
      [(unsorted_scores, unsorted_bbox_indices);
       (sorted_scores, sorted_bbox_indices)]
  | gatherTopDetections _ _ _ _ _ _ _ _ _ indices scores _ _ _ _ =>
      [(scores, indices)]
  | _ => []
  end.

(** What a [permuteData] launch is asked to do: element count, class count,
    items per class, item width, element type, sigmoid flag, source and
    destination. *)
Definition permute_args (c : StageCall)
  : option (Z * Z * Z * Z * DataType * bool * ptr * ptr) :=
  match c with
  | permuteData _ nthreads num_classes num_data num_dim DT_DATA confSigmoid
      data new_data =>
      Some (nthreads, num_classes, num_data, num_dim, DT_DATA, confSigmoid,
            data, new_data)
  | _ => None
  end.

(** The [flipXY] and [caffeSemantics] flags of an NMS launch. *)
Definition nms_flags (c : StageCall) : option (bool * bool) :=
  match c with
  | allClassNMS _ _ _ _ _ _ _ _ _ _ _ _ _ _ _ flipXY _ caffeSemantics =>
      Some (flipXY, caffeSemantics)
  | _ => None
  end.

(** The score bits a sort is launched with. *)
Definition score_bits_arg (c : StageCall) : option Z :=
  match c with
  | sortScoresPerClass _ _ _ _ _ _ _ _ _ _ score_bits _ => Some score_bits
  | sortScoresPerImage _ _ _ _ _ _ _ _ _ score_bits => Some score_bits
  | _ => None
  end.

(** The number of items per image the per-image sort is launched on. *)
Definition items_per_image (c : StageCall) : option Z :=
  match c with
  | sortScoresPerImage _ _ num_items_per_image _ _ _ _ _ _ _ =>
      Some num_items_per_image
  | _ => None
  end.

Section Regions.

Variable detectionForwardBBoxDataSize : Z -> Z -> DataType -> size_t.
Variable detectionForwardBBoxPermuteSize : bool -> Z -> Z -> DataType -> size_t.
Variable detectionForwardPreNMSSize : Z -> Z -> size_t.
Variable detectionForwardPostNMSSize : Z -> Z -> Z -> size_t.
Variable nextWorkspacePtr : ptr -> size_t -> ptr.

(** The six sub-buffers whose size [detectionInference] computes, each with
    the byte count that is stepped over to reach the next one. *)
Definition sized_regions (workspace : ptr) (N C1 C2 : Z)
    (shareLocation : bool) (numClasses topK : Z)
    (DT_BBOX DT_SCORE : DataType) : list (ptr * size_t) :=
  let L := layout detectionForwardBBoxDataSize
             detectionForwardBBoxPermuteSize detectionForwardPreNMSSize
             detectionForwardPostNMSSize nextWorkspacePtr workspace N C1 C2
             shareLocation numClasses topK DT_BBOX DT_SCORE in
  [(bboxDataRaw L, detectionForwardBBoxDataSize N C1 DT_BBOX);
   (bboxPermute L,
    detectionForwardBBoxPermuteSize shareLocation N C1 DT_BBOX);
   (scores L, scoresSize detectionForwardPreNMSSize N C2 DT_SCORE);
   (indices L, indicesSize detectionForwardPreNMSSize N C2);
   (postNMSScores L,
    postNMSScoresSize detectionForwardPostNMSSize N numClasses topK DT_SCORE);
   (postNMSIndices L,
    postNMSIndicesSize detectionForwardPostNMSSize N numClasses topK)].

End Regions.

(** An address lies in a region. *)
Definition inside (r : ptr * size_t) (a : ptr) : Prop :=
  (fst r <= a < fst r + snd r)%N.

(** A region ends at or before the start of another. *)
Definition precedes (r1 r2 : ptr * size_t) : Prop :=
  (fst r1 + snd r1 <= fst r2)%N.

(** * Properties *)

(** ** Constants and machine arithmetic *)

Example float_one_valid : valid_binary 24 128 float_one = true.
Proof. reflexivity. Qed.

Lemma float_one_not_zero : float_one <> float_zero.
Proof. discriminate. Qed.

Lemma status_eqb_eq (a b : pluginStatus_t) :
  status_eqb a b = true <-> a = b.
Proof.
  destruct a, b; simpl; split; intro H; try reflexivity; discriminate.
Qed.

Lemma DataType_eqb_eq (a b : DataType) : DataType_eqb a b = true <-> a = b.
Proof.
  destruct a, b; simpl; split; intro H; try reflexivity; discriminate.
Qed.

Lemma wrap_int_in_int (z : Z) : in_int (wrap_int z).
Proof.
  unfold in_int, wrap_int.
  pose proof (Z.mod_pos_bound (z + 2 ^ 31) (2 ^ 32) ltac:(lia)). lia.
Qed.

Lemma wrap_int_id (z : Z) : in_int z -> wrap_int z = z.
Proof.
  unfold in_int, wrap_int. intro H.
  rewrite Z.mod_small by lia. lia.
Qed.

Lemma wrap_int_congr (x y : Z) :
  x mod 2 ^ 32 = y mod 2 ^ 32 -> wrap_int x = wrap_int y.
Proof.
  unfold wrap_int. intro H.
  rewrite (Z.add_mod x), (Z.add_mod y), H by lia. reflexivity.
Qed.

Lemma wrap_int_mod (z : Z) : wrap_int z mod 2 ^ 32 = z mod 2 ^ 32.
Proof.
  unfold wrap_int.
  rewrite <- (Z.mod_add _ 1) by lia.
  replace ((z + 2 ^ 31) mod 2 ^ 32 - 2 ^ 31 + 1 * 2 ^ 32)
    with ((z + 2 ^ 31) mod 2 ^ 32 + 2 ^ 31) by lia.
  rewrite Z.add_mod_idemp_l by lia.
  replace (z + 2 ^ 31 + 2 ^ 31) with (z + 1 * 2 ^ 32) by lia.
  apply Z.mod_add. lia.
Qed.

Lemma int_mul_wrap_r (a b : Z) : int_mul a (wrap_int b) = int_mul a b.
Proof.
  unfold int_mul. apply wrap_int_congr.
  rewrite (Z.mul_mod a (wrap_int b)), wrap_int_mod, <- Z.mul_mod by lia.
  reflexivity.
Qed.

Lemma int_mul_wrap_l (a b : Z) : int_mul (wrap_int a) b = int_mul a b.
Proof.
  unfold int_mul. rewrite (Z.mul_comm (wrap_int a)), (Z.mul_comm a).
  apply int_mul_wrap_r.
Qed.

Lemma int_mul_assoc (a b c : Z) :
  int_mul a (int_mul b c) = int_mul (int_mul a b) c.
Proof.
  change (int_mul b c) with (wrap_int (b * c)).
  change (int_mul a b) with (wrap_int (a * b)).
  rewrite int_mul_wrap_r, int_mul_wrap_l.
  unfold int_mul. now rewrite Z.mul_assoc.
Qed.

(** ** Running a launch list *)

Section Launching.

Variable Device : Type.
Variable run : StageCall -> Device -> pluginStatus_t * Device.

Lemma run_until_failure_halted (cs : list StageCall) :
  forall w : World Device,
  exists log,
    launched (snd (run_until_failure Device run cs w)) = launched w ++ log
    /\ Halted cs (fst (run_until_failure Device run cs w)) log.
Proof.
  induction cs as [| c cs IH]; intro w; simpl.
  - exists []. split; [now rewrite app_nil_r | apply (all_succeeded [])].
  - destruct (run c (device w)) as [s d] eqn:Hrun.
    destruct (status_eqb s STATUS_SUCCESS) eqn:Hs.
    + apply status_eqb_eq in Hs. subst s.
      destruct (IH (mkWorld d (launched w ++ [(c, STATUS_SUCCESS)])))
        as (log & Hlog & Hh).
      exists ((c, STATUS_SUCCESS) :: log). split.
      * rewrite Hlog. simpl. now rewrite <- app_assoc.
      * inversion Hh as [Hst Hl | pre c' s' post Hcs Hne Hst Hl].
        -- apply (all_succeeded (c :: cs)).
        -- subst cs.
           apply (failed_at (c :: pre ++ c' :: post) (c :: pre) c' s' post);
             [reflexivity | assumption].
    + exists [(c, s)]. split; [reflexivity |].
      apply (failed_at (c :: cs) [] c s cs); [reflexivity |].
      intro E. subst s. discriminate.
Qed.


End Launching.

(** Reading a halted log. *)

Lemma map_fst_tagged (cs : list StageCall) :
  map fst (map (fun c => (c, STATUS_SUCCESS)) cs) = cs.
Proof. induction cs; simpl; congruence. Qed.

Lemma map_snd_tagged (cs : list StageCall) :
  Forall (eq STATUS_SUCCESS)
    (map snd (map (fun c => (c, STATUS_SUCCESS)) cs)).
Proof. induction cs; simpl; constructor; auto. Qed.

Lemma tagged_in (cs : list StageCall) (c : StageCall) (s : pluginStatus_t) :
  In (c, s) (map (fun c => (c, STATUS_SUCCESS)) cs) -> s = STATUS_SUCCESS.
Proof.
  intro H. apply in_map_iff in H. destruct H as (c' & E & _). congruence.
Qed.

Lemma Halted_calls_prefix cs s log :
  Halted cs s log -> exists rest, cs = map fst log ++ rest.
Proof.
  intros [| pre c s' post Hcs Hne].
  - exists []. now rewrite map_fst_tagged, app_nil_r.
  - exists post. rewrite map_app, map_fst_tagged. simpl.
    now rewrite <- app_assoc.
Qed.

Lemma Halted_nonempty c cs s log :
  Halted (c :: cs) s log -> exists s' tl, log = (c, s') :: tl.
Proof.
  intro H. inversion H as [Hst Hl | pre c' s' post Hcs Hne Hst Hl].
  - simpl. eauto.
  - destruct pre as [| c0 pre']; simpl in *; inversion Hcs; subst; eauto.
Qed.


Lemma Halted_success cs s log :
  Halted cs s log -> s = STATUS_SUCCESS -> map fst log = cs.
Proof.
  intros [| pre c s' post Hcs Hne] E; [apply map_fst_tagged | discriminate].
Qed.

Lemma Halted_status_iff cs s log :
  Halted cs s log ->
  (s = STATUS_SUCCESS <-> Forall (eq STATUS_SUCCESS) (map snd log)).
Proof.
  intros [| pre c s' post Hcs Hne]; split; intro H.
  - apply map_snd_tagged.
  - reflexivity.
  - discriminate.
  - exfalso. rewrite Forall_forall in H. apply Hne. symmetry. apply H.
    rewrite map_app. apply in_or_app. right. simpl. now left.
Qed.

Lemma Halted_stops_at_failure cs s log pre c s' post :
  Halted cs s log ->
  log = pre ++ (c, s') :: post ->
  s' <> STATUS_SUCCESS ->
  post = [] /\ s = STATUS_FAILURE.
Proof.
  intros [| pre0 c0 s0 post0 Hcs Hne] Hlog Hs'.
  - exfalso. apply Hs'. apply (tagged_in cs c).
    rewrite Hlog. apply in_or_app. right. now left.
  - split; [| reflexivity].
    destruct post as [| e post'] using rev_ind; [reflexivity |].
    exfalso. clear IHpost'.
    change (pre ++ (c, s') :: post' ++ [e])
      with (pre ++ ((c, s') :: post') ++ [e]) in Hlog.
    rewrite app_assoc in Hlog.
    apply app_inj_tail in Hlog. destruct Hlog as [Hpre _].
    apply Hs'. apply (tagged_in pre0 c).
    rewrite Hpre. apply in_or_app. right. now left.
Qed.

(** A launch of the list is reached, and logged at its own position, as
    soon as the statuses logged before that position are all successes. *)
Lemma Halted_reaches cs s log k c :
  Halted cs s log ->
  nth_error cs k = Some c ->
  Forall (eq STATUS_SUCCESS) (firstn k (map snd log)) ->
  exists s', nth_error log k = Some (c, s').
Proof.
  intros [| pre c0 s0 post Hcs Hne] Hk Hok.
  - exists STATUS_SUCCESS.
    exact (map_nth_error (fun c => (c, STATUS_SUCCESS)) k cs Hk).
  - subst cs.
    destruct (Nat.lt_total k (length pre)) as [Hlt | [Heq | Hgt]].
    + exists STATUS_SUCCESS.
      rewrite nth_error_app1 in Hk by exact Hlt.
      rewrite nth_error_app1 by (rewrite length_map; exact Hlt).
      exact (map_nth_error (fun c => (c, STATUS_SUCCESS)) k pre Hk).
    + exists s0. subst k.
      rewrite nth_error_app2 in Hk by lia.
      rewrite nth_error_app2 by (rewrite length_map; lia).
      rewrite length_map. rewrite Nat.sub_diag in *. simpl in *.
      inversion Hk. reflexivity.
    + exfalso. apply Hne. symmetry.
      rewrite Forall_forall in Hok. apply Hok.
      rewrite firstn_all2.
      * rewrite map_app. apply in_or_app. right. simpl. now left.
      * rewrite length_map, length_app, length_map. simpl. lia.
Qed.

Lemma half_of_even (n : N) : N.even n = true -> (2 * (n / 2) = n)%N.
Proof.
  intro H. apply N.even_spec in H. destruct H as [k Hk]. subst n.
  rewrite (N.mul_comm 2 k), N.div_mul by discriminate. apply N.mul_comm.
Qed.

Lemma half_is_less (n : N) : n <> 0%N -> (n / 2 <> n)%N.
Proof.
  intros Hn E. assert (H : (n / 2 < n)%N) by (apply N.div_lt; lia). lia.
Qed.

(** ** Launch lists and the device *)

(** Two initial segments of one list: one of them continues the other. *)
Lemma prefixes_comparable {A : Type} (l l1 l2 r1 r2 : list A) :
  l = l1 ++ r1 -> l = l2 ++ r2 ->
  (exists t, l2 = l1 ++ t) \/ (exists t, l1 = l2 ++ t).
Proof.
  revert l l2 r1 r2.
  induction l1 as [| x l1 IH]; intros l l2 r1 r2 H1 H2.
  - left. exists l2. reflexivity.
  - destruct l2 as [| y l2].
    + right. exists (x :: l1). reflexivity.
    + subst l. simpl in H2. inversion H2 as [[Hxy Hrest]]. subst y.
      destruct (IH _ l2 r1 r2 eq_refl Hrest) as [[t Ht] | [t Ht]].
      * left. exists t. now rewrite Ht.
      * right. exists t. now rewrite Ht.
Qed.

(** In a strongly sorted list an earlier element is related to every later
    one. *)
Lemma StronglySorted_nth_error {A : Type} (R : A -> A -> Prop)
    (l : list A) :
  StronglySorted R l ->
  forall i j x y,
    (i < j)%nat -> nth_error l i = Some x -> nth_error l j = Some y ->
    R x y.
Proof.
  induction 1 as [| a l Hs IH Hall]; intros i j x y Hij Hi Hj.
  - destruct i; discriminate.
  - destruct j as [| j]; [lia |].
    destruct i as [| i]; simpl in Hi, Hj.
    + inversion Hi; subst x.
      rewrite Forall_forall in Hall. apply Hall.
      exact (nth_error_In l j Hj).
    + apply (IH i j x y); [lia | assumption | assumption].
Qed.

Lemma disjoint_of_precedes (r1 r2 : ptr * size_t) (a : ptr) :
  precedes r1 r2 -> inside r1 a -> inside r2 a -> False.
Proof. unfold precedes, inside. lia. Qed.

Lemma NoDup_pipeline_order (shareLocation : bool) :
  NoDup (pipeline_order shareLocation).
Proof.
  unfold pipeline_order.
  destruct shareLocation; simpl;
    repeat (constructor; [simpl; intuition discriminate |]);
    constructor.
Qed.

(** ** One invocation of [detectionInference] *)

Section Invocation.

Variable Device : Type.
Variable run : StageCall -> Device -> pluginStatus_t * Device.
Variable detectionForwardBBoxDataSize : Z -> Z -> DataType -> size_t.
Variable detectionForwardBBoxPermuteSize : bool -> Z -> Z -> DataType -> size_t.
Variable detectionForwardPreNMSSize : Z -> Z -> size_t.
Variable detectionForwardPostNMSSize : Z -> Z -> Z -> size_t.
Variable nextWorkspacePtr : ptr -> size_t -> ptr.

Variable stream : cudaStream_t.
Variables N C1 C2 : Z.
Variables shareLocation varianceEncodedInTarget : bool.
Variables backgroundLabelId numPredsPerClass numClasses topK keepTopK : Z.
Variables confidenceThreshold nmsThreshold : float.
Variable codeType : CodeTypeSSD.
Variables DT_BBOX DT_SCORE : DataType.
Variables locData priorData confData keepCount topDetections workspace : ptr.
Variables isNormalized confSigmoid : bool.
Variable scoreBits : Z.
Variable isBatchAgnostic : bool.

(** The device state at entry; the log starts empty. *)
Variable d0 : Device.

Local Abbreviation outcome :=
  (detectionInference Device run detectionForwardBBoxDataSize
     detectionForwardBBoxPermuteSize detectionForwardPreNMSSize
     detectionForwardPostNMSSize nextWorkspacePtr
     stream N C1 C2 shareLocation varianceEncodedInTarget backgroundLabelId
     numPredsPerClass numClasses topK keepTopK confidenceThreshold
     nmsThreshold codeType DT_BBOX locData priorData DT_SCORE confData
     keepCount topDetections workspace isNormalized confSigmoid scoreBits
     isBatchAgnostic (mkWorld d0 [])).

Local Abbreviation launches :=
  (schedule detectionForwardBBoxDataSize detectionForwardBBoxPermuteSize
     detectionForwardPreNMSSize detectionForwardPostNMSSize nextWorkspacePtr
     stream N C1 C2 shareLocation varianceEncodedInTarget backgroundLabelId
     numPredsPerClass numClasses topK keepTopK confidenceThreshold
     nmsThreshold codeType DT_BBOX locData priorData DT_SCORE confData
     keepCount topDetections workspace isNormalized confSigmoid scoreBits
     isBatchAgnostic).

Local Abbreviation regions :=
  (layout detectionForwardBBoxDataSize detectionForwardBBoxPermuteSize
     detectionForwardPreNMSSize detectionForwardPostNMSSize nextWorkspacePtr
     workspace N C1 C2 shareLocation numClasses topK DT_BBOX DT_SCORE).

Ltac step_launch :=
  match goal with
  | |- context [run ?c ?d] =>
      let s := fresh "s" in
      let d' := fresh "d" in
      destruct (run c d) as [s d']; simpl;
      destruct s; simpl; try reflexivity
  end.

(** The chain of launches and [ASSERT_FAILURE]s is the launch list run until
    its first failure. *)
Lemma detectionInference_schedule (w : World Device) :
  detectionInference Device run detectionForwardBBoxDataSize
    detectionForwardBBoxPermuteSize detectionForwardPreNMSSize
    detectionForwardPostNMSSize nextWorkspacePtr
    stream N C1 C2 shareLocation varianceEncodedInTarget backgroundLabelId
    numPredsPerClass numClasses topK keepTopK confidenceThreshold
    nmsThreshold codeType DT_BBOX locData priorData DT_SCORE confData
    keepCount topDetections workspace isNormalized confSigmoid scoreBits
    isBatchAgnostic w
  = run_until_failure Device run launches w.
Proof.
  unfold detectionInference, detectionInference_body, schedule, layout.
  unfold bind, launch, ASSERT_FAILURE, ret, return_.
  destruct w as [d log].
  destruct shareLocation; simpl.
  all: repeat step_launch.
Qed.

Lemma invocation_halted :
  Halted launches (fst outcome) (launched (snd outcome)).
Proof.
  rewrite detectionInference_schedule.
  destruct (run_until_failure_halted Device run launches (mkWorld d0 []))
    as (log & Hlog & Hh).
  change (launched (mkWorld d0 []) ++ log) with log in Hlog.
  rewrite Hlog. exact Hh.
Qed.

Lemma calls_prefix : exists rest, launches = calls_of outcome ++ rest.
Proof. exact (Halted_calls_prefix _ _ _ invocation_halted). Qed.

Lemma calls_incl (c : StageCall) : In c (calls_of outcome) -> In c launches.
Proof.
  destruct calls_prefix as [rest E]. intro H. rewrite E.
  apply in_or_app. now left.
Qed.

Lemma calls_on_success :
  fst outcome = STATUS_SUCCESS -> calls_of outcome = launches.
Proof. exact (Halted_success _ _ _ invocation_halted). Qed.

Lemma schedule_stages : map stage_of launches = pipeline_order shareLocation.
Proof.
  unfold schedule, pipeline_order. destruct shareLocation; reflexivity.
Qed.

Lemma first_call_is_decode :
  exists c rest,
    calls_of outcome = c :: rest
    /\ c = decodeBBoxes stream (locCount N C1) codeType
             varianceEncodedInTarget numPredsPerClass shareLocation
             (numLocClasses shareLocation numClasses) backgroundLabelId
             clipBBox DT_BBOX locData priorData workspace isBatchAgnostic.
Proof.
  pose proof invocation_halted as Hh.
  unfold schedule in Hh. cbn [app] in Hh.
  destruct (Halted_nonempty _ _ _ _ Hh) as (s & tl & Hlog).
  unfold calls_of. rewrite Hlog. simpl. eauto.
Qed.


(** C2: [detectionInference] returns [STATUS_SUCCESS] exactly when every
    stage it launched reported [STATUS_SUCCESS], and then every stage of the
    pipeline was launched; a launch that reports anything else is the last
    one of the log, and the function returns a failure. *)
Theorem detectionInference_status_propagation :
  (fst outcome = STATUS_SUCCESS
   <-> Forall (eq STATUS_SUCCESS) (statuses_of outcome))
  /\ (fst outcome = STATUS_SUCCESS ->
      stages_of outcome = pipeline_order shareLocation)
  /\ (forall pre c s post,
        launched (snd outcome) = pre ++ (c, s) :: post ->
        s <> STATUS_SUCCESS ->
        post = [] /\ fst outcome = STATUS_FAILURE)
  /\ (fst outcome <> STATUS_SUCCESS ->
      exists pre c s,
        launched (snd outcome) = pre ++ [(c, s)]
        /\ s <> STATUS_SUCCESS
        /\ Forall (eq STATUS_SUCCESS) (map snd pre)).
Proof.
  pose proof invocation_halted as Hh.
  split; [| split; [| split]].
  - apply (Halted_status_iff _ _ _ Hh).
  - intro Hs. unfold stages_of. rewrite (calls_on_success Hs).
    apply schedule_stages.
  - intros pre c s post Hlog Hs.
    exact (Halted_stops_at_failure _ _ _ _ _ _ _ Hh Hlog Hs).
  - intro Hne.
    inversion Hh as [Hst Hl | pre c s post Hcs Hs Hst Hl].
    + congruence.
    + exists (map (fun c => (c, STATUS_SUCCESS)) pre), c, s.
      repeat split; [assumption | apply map_snd_tagged].
Qed.

(** C6: whatever the parameters, the first launch of an invocation is the
    box decoder, and every decoder launch has [clipBBox] false. *)
Theorem decode_never_clips :
  (exists c rest,
     calls_of outcome = c :: rest
     /\ stage_of c = Decode
     /\ clip_flag c = Some false)
  /\ (forall c b, In c (calls_of outcome) -> clip_flag c = Some b -> b = false).
Proof.
  split.
  - destruct first_call_is_decode as (c & rest & Hc & Hd).
    exists c, rest. subst c. repeat split. assumption.
  - intros c b Hin Hb. apply calls_incl in Hin.
    unfold schedule in Hin.
    destruct shareLocation; simpl in Hin;
      repeat (destruct Hin as [Hin | Hin]; [subst c; simpl in Hb |]);
      try discriminate; try contradiction;
      inversion Hb; reflexivity.
Qed.

(** The launch at position [k] of the launch list is made, with the
    arguments listed, as soon as the launches before it all succeeded. *)
Lemma invocation_reaches (k : nat) (c : StageCall) :
  nth_error launches k = Some c ->
  Forall (eq STATUS_SUCCESS) (firstn k (statuses_of outcome)) ->
  nth_error (calls_of outcome) k = Some c.
Proof.
  intros Hk Hok.
  destruct (Halted_reaches _ _ _ k c invocation_halted Hk Hok) as [s' Hs'].
  unfold calls_of.
  exact (map_nth_error fst k (launched (snd outcome)) Hs').
Qed.

(** So is the stage at position [k] of the pipeline order. *)
Lemma stage_reached (k : nat) (st : Stage) :
  nth_error (pipeline_order shareLocation) k = Some st ->
  Forall (eq STATUS_SUCCESS) (firstn k (statuses_of outcome)) ->
  exists c,
    nth_error (calls_of outcome) k = Some c
    /\ stage_of c = st
    /\ In c launches.
Proof.
  intros Hk Hok. rewrite <- schedule_stages in Hk.
  rewrite nth_error_map in Hk.
  destruct (nth_error launches k) as [c |] eqn:Hc; [| discriminate].
  simpl in Hk. inversion Hk as [Hst].
  exists c. repeat split.
  - exact (invocation_reaches k c Hc Hok).
  - exact (nth_error_In launches k Hc).
Qed.

Lemma scoreShift_one_iff :
  scoreShift DT_SCORE scoreBits = float_one
  <-> DT_SCORE = kHALF /\ 1 <= scoreBits <= 10.
Proof.
  unfold scoreShift.
  destruct (DataType_eqb DT_SCORE kHALF) eqn:Hdt;
    destruct (0 <? scoreBits) eqn:Hlo;
    destruct (scoreBits <=? 10) eqn:Hhi; simpl;
    try apply DataType_eqb_eq in Hdt;
    try apply Z.ltb_lt in Hlo; try apply Z.ltb_ge in Hlo;
    try apply Z.leb_le in Hhi; try apply Z.leb_gt in Hhi;
    split; intro H;
    try (exfalso; apply float_one_not_zero; now symmetry);
    try reflexivity;
    try (split; [assumption | lia]);
    try (destruct H as [H1 H2]; exfalso; lia).
  all: destruct H as [H1 H2]; apply DataType_eqb_eq in H1; congruence.
Qed.

Lemma scoreShift_cases :
  scoreShift DT_SCORE scoreBits = float_one
  \/ scoreShift DT_SCORE scoreBits = float_zero.
Proof.
  unfold scoreShift.
  destruct (DataType_eqb DT_SCORE kHALF && (0 <? scoreBits)
            && (scoreBits <=? 10)); auto.
Qed.

Lemma shift_arg_defined (c : StageCall) :
  In (stage_of c) [SortPerClass; NMS; Gather] ->
  exists x, shift_arg c = Some x.
Proof.
  destruct c; simpl; eauto; try (destruct (num_dim =? 4)); simpl;
    intuition discriminate.
Qed.

Lemma schedule_shift (c : StageCall) (x : float) :
  In c launches -> shift_arg c = Some x -> x = scoreShift DT_SCORE scoreBits.
Proof.
  intros Hin Hx. unfold schedule in Hin.
  destruct shareLocation; simpl in Hin;
    repeat (destruct Hin as [Hin | Hin]; [subst c; simpl in Hx |]);
    try discriminate; try contradiction;
    inversion Hx; reflexivity.
Qed.

(** C4: the score shift is [1.0] exactly when the scores are FLOAT16 and
    [scoreBits] lies in 1..10, and [0.0] otherwise. Every stage that takes a
    shift (per-class sort, NMS, gather) is launched with that one value, so
    any two shift arguments of one invocation are equal. The decoder is
    always launched, and each later stage is launched as soon as the
    launches before it succeeded: the per-class sort, the NMS and the
    gather are then reached with the shift. The gather is given the amount
    the sort was given, so a gather that takes off the shift it is handed
    returns the score the sort started from. *)
Theorem scoreShift_enabled_and_shared :
  (scoreShift DT_SCORE scoreBits = float_one
   <-> DT_SCORE = kHALF /\ 1 <= scoreBits <= 10)
  /\ (scoreShift DT_SCORE scoreBits = float_zero
      <-> ~ (DT_SCORE = kHALF /\ 1 <= scoreBits <= 10))
  /\ (forall c x,
        In c (calls_of outcome) -> shift_arg c = Some x ->
        x = scoreShift DT_SCORE scoreBits)
  /\ (fst outcome = STATUS_SUCCESS ->
      forall st, In st [SortPerClass; NMS; Gather] ->
      exists c,
        In c (calls_of outcome) /\ stage_of c = st
        /\ shift_arg c = Some (scoreShift DT_SCORE scoreBits))
  /\ (forall k st,
        nth_error (pipeline_order shareLocation) k = Some st ->
        Forall (eq STATUS_SUCCESS) (firstn k (statuses_of outcome)) ->
        exists c,
          nth_error (calls_of outcome) k = Some c
          /\ stage_of c = st
          /\ (In st [SortPerClass; NMS; Gather] ->
              shift_arg c = Some (scoreShift DT_SCORE scoreBits)))
  /\ (forall c1 c2 x1 x2,
        In c1 (calls_of outcome) -> In c2 (calls_of outcome) ->
        shift_arg c1 = Some x1 -> shift_arg c2 = Some x2 -> x1 = x2)
  /\ (forall (Score : Type) (shifted unshifted : float -> Score -> Score),
        (forall x s, unshifted x (shifted x s) = s) ->
        forall c1 c2 x1 x2,
          In c1 (calls_of outcome) -> In c2 (calls_of outcome) ->
          stage_of c1 = SortPerClass -> stage_of c2 = Gather ->
          shift_arg c1 = Some x1 -> shift_arg c2 = Some x2 ->
          forall s, unshifted x2 (shifted x1 s) = s).
Proof.
  assert (Hsame : forall c x,
            In c (calls_of outcome) -> shift_arg c = Some x ->
            x = scoreShift DT_SCORE scoreBits).
  { intros c x Hin Hx. apply calls_incl in Hin.
    exact (schedule_shift c x Hin Hx). }
  split; [exact scoreShift_one_iff |].
  split; [| split; [exact Hsame | split; [| split; [| split]]]].
  - rewrite <- scoreShift_one_iff. split.
    + intros H0 H1. apply float_one_not_zero. congruence.
    + intro Hn. destruct scoreShift_cases as [H | H]; [contradiction | exact H].
  - intros Hs st Hst. rewrite (calls_on_success Hs).
    assert (Hin : In st (map stage_of launches)).
    { rewrite schedule_stages. unfold pipeline_order.
      simpl in Hst. destruct shareLocation; simpl; tauto. }
    apply in_map_iff in Hin. destruct Hin as (c & Hc & Hin).
    exists c. repeat split; try assumption.
    destruct (shift_arg_defined c) as [x Hx]; [now rewrite Hc |].
    rewrite Hx. f_equal. exact (schedule_shift c x Hin Hx).
  - intros k st Hk Hok.
    destruct (stage_reached k st Hk Hok) as (c & Hc & Hst & Hin).
    exists c. repeat split; try assumption.
    intro Hthree.
    destruct (shift_arg_defined c) as [x Hx]; [now rewrite Hst |].
    rewrite Hx. f_equal. exact (schedule_shift c x Hin Hx).
  - intros c1 c2 x1 x2 H1 H2 E1 E2.
    rewrite (Hsame c1 x1 H1 E1), (Hsame c2 x2 H2 E2). reflexivity.
  - intros Score shifted unshifted Hback c1 c2 x1 x2 H1 H2 _ _ E1 E2 s.
    rewrite (Hsame c1 x1 H1 E1), (Hsame c2 x2 H2 E2). apply Hback.
Qed.

(** Each sub-buffer starts at or after the end of the one before it, as soon
    as [nextWorkspacePtr] never steps back over the bytes it is given. *)
Lemma layout_in_sequence :
  (forall p s, (p + s <= nextWorkspacePtr p s)%N) ->
  (bboxDataRaw regions = workspace
   /\ bboxDataRaw regions + detectionForwardBBoxDataSize N C1 DT_BBOX
      <= bboxPermute regions
   /\ bboxPermute regions
      + detectionForwardBBoxPermuteSize shareLocation N C1 DT_BBOX
      <= scores regions
   /\ scores regions + scoresSize detectionForwardPreNMSSize N C2 DT_SCORE
      <= indices regions
   /\ indices regions + indicesSize detectionForwardPreNMSSize N C2
      <= postNMSScores regions
   /\ postNMSScores regions
      + postNMSScoresSize detectionForwardPostNMSSize N numClasses topK
          DT_SCORE
      <= postNMSIndices regions
   /\ postNMSIndices regions
      + postNMSIndicesSize detectionForwardPostNMSSize N numClasses topK
      <= sortingWorkspace regions)%N.
Proof.
  intro Hadv. unfold layout. simpl. repeat split; try apply Hadv.
Qed.



(** C9: every invocation launches the decoder, first, on
    [locCount = N * C1] elements, [numPredsPerClass] priors and
    [numLocClasses] location classes, the latter 1 when boxes are shared and
    [numClasses] otherwise. When the caller's [C1] is
    [numPredsPerClass * numLocClasses * 4], that element count is the [int]
    product [N * numPredsPerClass * numLocClasses * 4], the exact product
    whenever it fits an [int]. The code does not check [C1]: for a non-empty
    batch whose count fits an [int], the element count is that product only
    for this [C1]. *)
Theorem locCount_matches_decode_sizing :
  (exists c rest,
     calls_of outcome = c :: rest
     /\ stage_of c = Decode
     /\ decode_counts c
        = Some (locCount N C1, numPredsPerClass,
                numLocClasses shareLocation numClasses))
  /\ numLocClasses shareLocation numClasses
     = (if shareLocation then 1 else numClasses)
  /\ (C1 = numPredsPerClass * numLocClasses shareLocation numClasses * 4 ->
      locCount N C1
      = int_mul
          (int_mul (int_mul N numPredsPerClass)
             (numLocClasses shareLocation numClasses)) 4
      /\ locCount N C1
         = wrap_int
             (N * numPredsPerClass * numLocClasses shareLocation numClasses
              * 4)
      /\ (in_int
            (N * numPredsPerClass * numLocClasses shareLocation numClasses
             * 4) ->
          locCount N C1
          = N * numPredsPerClass * numLocClasses shareLocation numClasses
            * 4))
  /\ (N <> 0 -> in_int (N * C1) ->
      locCount N C1
      = N * numPredsPerClass * numLocClasses shareLocation numClasses * 4 ->
      C1 = numPredsPerClass * numLocClasses shareLocation numClasses * 4).
Proof.
  split; [| split; [reflexivity | split]].
  - destruct first_call_is_decode as (c & rest & Hc & Hd).
    exists c, rest. subst c. repeat split. exact Hc.
  - intro HC1.
    assert (Hw : locCount N C1
                 = wrap_int
                     (N * numPredsPerClass
                      * numLocClasses shareLocation numClasses * 4)).
    { unfold locCount, int_mul. rewrite HC1. f_equal. ring. }
    split; [| split].
    + rewrite Hw.
      change (int_mul N numPredsPerClass)
        with (wrap_int (N * numPredsPerClass)).
      rewrite int_mul_wrap_l.
      change (int_mul (N * numPredsPerClass)
                (numLocClasses shareLocation numClasses))
        with (wrap_int (N * numPredsPerClass
                        * numLocClasses shareLocation numClasses)).
      rewrite int_mul_wrap_l. reflexivity.
    + exact Hw.
    + intro Hfit. rewrite Hw. now apply wrap_int_id.
  - intros HN Hfit H.
    assert (Hloc : locCount N C1 = N * C1).
    { unfold locCount, int_mul. now apply wrap_int_id. }
    rewrite Hloc in H.
    apply (Z.mul_reg_l _ _ N HN). rewrite H. ring.
Qed.

(** C10: with FLOAT16 scores the permuted-score region and the post-NMS
    score region take half the bytes they take with FLOAT32 scores, what
    [size_t] division by 2 gives, exactly half for an even byte count; the
    two index regions have the full size whatever the score type. The
    layout is stepped by these sizes: the index region starts where
    [nextWorkspacePtr] puts it after the (halved or full) scores, likewise
    the post-NMS indices after the post-NMS scores, and the per-class sort
    and the NMS are launched on the pointers so obtained. The scores start
    at the same address for both score types, and the regions of the two
    score types differ as soon as the pre-NMS size is not zero. *)
Theorem half_scores_halve_regions :
  (scoresSize detectionForwardPreNMSSize N C2 kHALF
   = scoresSize detectionForwardPreNMSSize N C2 kFLOAT / 2
   /\ postNMSScoresSize detectionForwardPostNMSSize N numClasses topK kHALF
      = postNMSScoresSize detectionForwardPostNMSSize N numClasses topK kFLOAT
        / 2
   /\ (N.even (detectionForwardPreNMSSize N C2) = true ->
       2 * scoresSize detectionForwardPreNMSSize N C2 kHALF
       = scoresSize detectionForwardPreNMSSize N C2 kFLOAT)
   /\ (N.even (detectionForwardPostNMSSize N numClasses topK) = true ->
       2 * postNMSScoresSize detectionForwardPostNMSSize N numClasses topK
             kHALF
       = postNMSScoresSize detectionForwardPostNMSSize N numClasses topK
           kFLOAT)
   /\ indicesSize detectionForwardPreNMSSize N C2
      = scoresSize detectionForwardPreNMSSize N C2 kFLOAT
   /\ postNMSIndicesSize detectionForwardPostNMSSize N numClasses topK
      = postNMSScoresSize detectionForwardPostNMSSize N numClasses topK
          kFLOAT)%N
  /\ indices regions
     = nextWorkspacePtr (scores regions)
         (if DataType_eqb DT_SCORE kHALF
          then (detectionForwardPreNMSSize N C2 / 2)%N
          else detectionForwardPreNMSSize N C2)
  /\ postNMSScores regions
     = nextWorkspacePtr (indices regions) (detectionForwardPreNMSSize N C2)
  /\ postNMSIndices regions
     = nextWorkspacePtr (postNMSScores regions)
         (if DataType_eqb DT_SCORE kHALF
          then (detectionForwardPostNMSSize N numClasses topK / 2)%N
          else detectionForwardPostNMSSize N numClasses topK)
  /\ sortingWorkspace regions
     = nextWorkspacePtr (postNMSIndices regions)
         (detectionForwardPostNMSSize N numClasses topK)
  /\ (forall k,
        nth_error (pipeline_order shareLocation) k = Some SortPerClass ->
        Forall (eq STATUS_SUCCESS) (firstn k (statuses_of outcome)) ->
        exists c,
          nth_error (calls_of outcome) k = Some c
          /\ score_index_buffers c
             = [(scores regions,
                 nextWorkspacePtr (scores regions)
                   (if DataType_eqb DT_SCORE kHALF
                    then (detectionForwardPreNMSSize N C2 / 2)%N
                    else detectionForwardPreNMSSize N C2))])
  /\ (forall k,
        nth_error (pipeline_order shareLocation) k = Some NMS ->
        Forall (eq STATUS_SUCCESS) (firstn k (statuses_of outcome)) ->
        exists c,
          nth_error (calls_of outcome) k = Some c
          /\ score_index_buffers c
             = [(scores regions, indices regions);
                (postNMSScores regions,
                 nextWorkspacePtr (postNMSScores regions)
                   (if DataType_eqb DT_SCORE kHALF
                    then (detectionForwardPostNMSSize N numClasses topK / 2)%N
                    else detectionForwardPostNMSSize N numClasses topK))])
  /\ scores
       (layout detectionForwardBBoxDataSize detectionForwardBBoxPermuteSize
          detectionForwardPreNMSSize detectionForwardPostNMSSize
          nextWorkspacePtr workspace N C1 C2 shareLocation numClasses topK
          DT_BBOX kHALF)
     = scores
         (layout detectionForwardBBoxDataSize detectionForwardBBoxPermuteSize
            detectionForwardPreNMSSize detectionForwardPostNMSSize
            nextWorkspacePtr workspace N C1 C2 shareLocation numClasses topK
            DT_BBOX kFLOAT)
  /\ (detectionForwardPreNMSSize N C2 <> 0%N ->
      sized_regions detectionForwardBBoxDataSize
        detectionForwardBBoxPermuteSize detectionForwardPreNMSSize
        detectionForwardPostNMSSize nextWorkspacePtr workspace N C1 C2
        shareLocation numClasses topK DT_BBOX kHALF
      <> sized_regions detectionForwardBBoxDataSize
           detectionForwardBBoxPermuteSize detectionForwardPreNMSSize
           detectionForwardPostNMSSize nextWorkspacePtr workspace N C1 C2
           shareLocation numClasses topK DT_BBOX kFLOAT).
Proof.
  assert (Hbuf : forall c,
            In c launches ->
            (stage_of c = SortPerClass ->
             score_index_buffers c = [(scores regions, indices regions)])
            /\ (stage_of c = NMS ->
                score_index_buffers c
                = [(scores regions, indices regions);
                   (postNMSScores regions, postNMSIndices regions)])).
  { intros c Hin. unfold schedule in Hin.
    destruct shareLocation; simpl in Hin;
      repeat (destruct Hin as [Hin | Hin];
              [subst c; split; intro Hst; try discriminate Hst;
               reflexivity |]);
      contradiction. }
  split; [| split; [| split; [| split; [| split; [| split; [| split]]]]]].
  - unfold scoresSize, postNMSScoresSize, indicesSize, postNMSIndicesSize.
    simpl. repeat split; try reflexivity; intro Heven;
      exact (half_of_even _ Heven).
  - reflexivity.
  - reflexivity.
  - reflexivity.
  - reflexivity.
  - intros k Hk Hok.
    destruct (stage_reached k SortPerClass Hk Hok) as (c & Hc & Hst & Hin).
    exists c. split; [exact Hc |].
    exact (proj1 (Hbuf c Hin) Hst).
  - intros k Hk Hok.
    destruct (stage_reached k NMS Hk Hok) as (c & Hc & Hst & Hin).
    exists c. split; [exact Hc |].
    exact (proj2 (Hbuf c Hin) Hst).
  - split; [reflexivity |].
    intros Hnz E.
    apply (f_equal (fun l => nth_error l 2)) in E.
    unfold sized_regions, scoresSize in E. simpl in E.
    inversion E as [Hhalf].
    exact (half_is_less _ Hnz Hhalf).
Qed.

(** *** Further properties of an invocation *)

(** No stage is launched twice in one invocation, there is no retry: the
    stages of the log are pairwise different, at least one and at most
    seven launches are made, at most six when boxes are shared. *)
Theorem no_stage_launched_twice :
  NoDup (stages_of outcome)
  /\ (1 <= length (calls_of outcome) <= 7)%nat
  /\ (shareLocation = true -> (length (calls_of outcome) <= 6)%nat).
Proof.
  destruct calls_prefix as [rest E].
  assert (Hst : pipeline_order shareLocation
                = stages_of outcome ++ map stage_of rest).
  { rewrite <- schedule_stages, E, map_app. reflexivity. }
  assert (Hlen : (length (calls_of outcome)
                  <= length (pipeline_order shareLocation))%nat).
  { rewrite Hst, length_app. unfold stages_of. rewrite length_map. lia. }
  split; [| split; [split |]].
  - apply (NoDup_app_remove_r _ (map stage_of rest)).
    rewrite <- Hst. apply NoDup_pipeline_order.
  - destruct first_call_is_decode as (c & tl & Hc & _).
    rewrite Hc. simpl. lia.
  - unfold pipeline_order in Hlen.
    destruct shareLocation; simpl in Hlen; lia.
  - intro Hsh. unfold pipeline_order in Hlen.
    destruct shareLocation; [simpl in Hlen; lia | discriminate].
Qed.

(** The score and index buffers alternate between two pairs of regions:
    the per-class sort works on (scores, indices), the NMS goes from that
    pair to (postNMSScores, postNMSIndices), the per-image sort goes from
    there back to (scores, indices), over what the per-class sort left, and
    the gather takes its scores and indices from that first pair. *)
Theorem score_buffers_alternate (c : StageCall) :
  In c (calls_of outcome) ->
  score_index_buffers c
  = match stage_of c with
    | SortPerClass => [(scores regions, indices regions)]
    | NMS => [(scores regions, indices regions);
              (postNMSScores regions, postNMSIndices regions)]
    | SortPerImage => [(postNMSScores regions, postNMSIndices regions);
                       (scores regions, indices regions)]
    | Gather => [(scores regions, indices regions)]
    | _ => []
    end.
Proof.
  intro Hin. apply calls_incl in Hin. unfold schedule in Hin.
  destruct shareLocation; simpl in Hin;
    repeat (destruct Hin as [Hin | Hin]; [subst c; reflexivity |]);
    contradiction.
Qed.

(** A kernel is never handed an address of the function's own making other
    than the seven workspace pointers: every pointer argument of every
    launch is one of the caller's five buffers or one of the seven
    sub-buffer starts. *)
Theorem pointer_arguments_provenance (c : StageCall) (p : ptr) :
  In c (calls_of outcome) ->
  In p (pointer_args c) ->
  In p [locData; priorData; confData; keepCount; topDetections;
        bboxDataRaw regions; bboxPermute regions; scores regions;
        indices regions; postNMSScores regions; postNMSIndices regions;
        sortingWorkspace regions].
Proof.
  intros Hin Hp. apply calls_incl in Hin. unfold schedule in Hin.
  unfold layout. simpl.
  destruct shareLocation; simpl in Hin;
    repeat (destruct Hin as [Hin | Hin];
            [subst c; simpl in Hp; tauto |]);
    contradiction.
Qed.

(** Two options are out of the caller's reach: a permutation of 4-element
    items (the boxes) is never launched with the sigmoid, whatever
    [confSigmoid] is, and happens only when boxes are not shared, while the
    score permutation gets the caller's [confSigmoid]; and every NMS launch
    has [flipXY] false and [caffeSemantics] true. *)
Theorem permutation_and_nms_options (c : StageCall) :
  In c (calls_of outcome) ->
  (forall a,
     permute_args c = Some a ->
     (shareLocation = false
      /\ a = (locCount N C1, numLocClasses shareLocation numClasses,
              numPredsPerClass, 4, DT_BBOX, false, workspace,
              bboxPermute regions))
     \/ a = (numScores N C2, numClasses, numPredsPerClass, 1, DT_SCORE,
             confSigmoid, confData, scores regions))
  /\ (forall f, nms_flags c = Some f -> f = (false, true)).
Proof.
  intro Hin. apply calls_incl in Hin. unfold schedule in Hin.
  split.
  - intros a Ha.
    destruct shareLocation; simpl in Hin;
      repeat (destruct Hin as [Hin | Hin];
              [subst c; simpl in Ha; try discriminate;
               inversion Ha; auto |]);
      contradiction.
  - intros f Hf.
    destruct shareLocation; simpl in Hin;
      repeat (destruct Hin as [Hin | Hin];
              [subst c; simpl in Hf; try discriminate;
               inversion Hf; reflexivity |]);
      contradiction.
Qed.

(** [scoreBits] reaches both sorts as the caller gave it, also when it is
    outside 1..10 or the scores are FLOAT32 and the shift is therefore off;
    and the per-image sort is launched on the [int] product
    [numClasses * topK] items per image, which is the exact product
    whenever that fits an [int]. *)
Theorem sorts_get_bits_and_item_count (c : StageCall) :
  In c (calls_of outcome) ->
  (forall b, score_bits_arg c = Some b -> b = scoreBits)
  /\ (forall n,
        items_per_image c = Some n ->
        n = int_mul numClasses topK
        /\ in_int n
        /\ (in_int (numClasses * topK) -> n = numClasses * topK))
  /\ (~ (DT_SCORE = kHALF /\ 1 <= scoreBits <= 10) ->
      forall x, shift_arg c = Some x -> x = float_zero).
Proof.
  intro Hin. pose proof (calls_incl c Hin) as Hs.
  split; [| split].
  - intros b Hb. unfold schedule in Hs.
    destruct shareLocation; simpl in Hs;
      repeat (destruct Hs as [Hs | Hs];
              [subst c; simpl in Hb; try discriminate;
               inversion Hb; reflexivity |]);
      contradiction.
  - intros n Hn.
    assert (E : n = int_mul numClasses topK).
    { unfold schedule in Hs.
      destruct shareLocation; simpl in Hs;
        repeat (destruct Hs as [Hs | Hs];
                [subst c; simpl in Hn; try discriminate;
                 inversion Hn; reflexivity |]);
        contradiction. }
    subst n. split; [reflexivity | split].
    + apply wrap_int_in_int.
    + intro Hfit. now apply wrap_int_id.
  - intros Hoff x Hx.
    rewrite (schedule_shift c x Hs Hx).
    destruct scoreShift_cases as [H | H]; [| exact H].
    exfalso. apply Hoff. now apply scoreShift_one_iff.
Qed.

(** Under a [nextWorkspacePtr] that never returns less than pointer plus
    size, the six sized sub-buffers lie one after the other from the
    workspace base on: each ends at or before the start of every later
    one, all of them end at or before the start of the sorting scratch,
    and no address belongs to two of them. *)
Theorem sized_regions_disjoint :
  (forall p s, (p + s <= nextWorkspacePtr p s)%N) ->
  StronglySorted precedes
    (sized_regions detectionForwardBBoxDataSize
       detectionForwardBBoxPermuteSize detectionForwardPreNMSSize
       detectionForwardPostNMSSize nextWorkspacePtr workspace N C1 C2
       shareLocation numClasses topK DT_BBOX DT_SCORE)
  /\ Forall (fun r => (workspace <= fst r)%N
                      /\ (fst r + snd r <= sortingWorkspace regions)%N)
       (sized_regions detectionForwardBBoxDataSize
          detectionForwardBBoxPermuteSize detectionForwardPreNMSSize
          detectionForwardPostNMSSize nextWorkspacePtr workspace N C1 C2
          shareLocation numClasses topK DT_BBOX DT_SCORE)
  /\ (forall i j r1 r2 a,
        i <> j ->
        nth_error
          (sized_regions detectionForwardBBoxDataSize
             detectionForwardBBoxPermuteSize detectionForwardPreNMSSize
             detectionForwardPostNMSSize nextWorkspacePtr workspace N C1 C2
             shareLocation numClasses topK DT_BBOX DT_SCORE) i = Some r1 ->
        nth_error
          (sized_regions detectionForwardBBoxDataSize
             detectionForwardBBoxPermuteSize detectionForwardPreNMSSize
             detectionForwardPostNMSSize nextWorkspacePtr workspace N C1 C2
             shareLocation numClasses topK DT_BBOX DT_SCORE) j = Some r2 ->
        inside r1 a -> inside r2 a -> False).
Proof.
  intro Hadv.
  destruct (layout_in_sequence Hadv) as (E0 & H1 & H2 & H3 & H4 & H5 & H6).
  assert (Hsorted :
            StronglySorted precedes
              (sized_regions detectionForwardBBoxDataSize
                 detectionForwardBBoxPermuteSize detectionForwardPreNMSSize
                 detectionForwardPostNMSSize nextWorkspacePtr workspace N C1
                 C2 shareLocation numClasses topK DT_BBOX DT_SCORE)).
  { unfold sized_regions, layout in *.
    simpl in H1, H2, H3, H4, H5, H6 |- *.
    repeat apply SSorted_cons; try apply SSorted_nil;
      repeat apply Forall_cons; try apply Forall_nil;
      unfold precedes; simpl; lia. }
  split; [exact Hsorted | split].
  - unfold sized_regions, layout in *.
    simpl in H1, H2, H3, H4, H5, H6 |- *.
    repeat apply Forall_cons; try apply Forall_nil; simpl; lia.
  - intros i j r1 r2 a Hij Hi Hj Ha1 Ha2.
    destruct (Nat.lt_total i j) as [Hlt | [Heq | Hgt]].
    + exact (disjoint_of_precedes r1 r2 a
               (StronglySorted_nth_error _ _ Hsorted i j r1 r2 Hlt Hi Hj)
               Ha1 Ha2).
    + contradiction.
    + exact (disjoint_of_precedes r2 r1 a
               (StronglySorted_nth_error _ _ Hsorted j i r2 r1 Hgt Hj Hi)
               Ha2 Ha1).
Qed.

(** Reading one byte of device memory, and the number of bytes a launch
    writes from one of its destinations. *)
Variable peek : Device -> ptr -> byte.
Variable extent : StageCall -> ptr -> size_t.


End Invocation.

(** ** Two invocations with the same arguments *)

Section TwoSettings.

Variables Device1 Device2 : Type.
Variable run1 : StageCall -> Device1 -> pluginStatus_t * Device1.
Variable run2 : StageCall -> Device2 -> pluginStatus_t * Device2.
Variable d1 : Device1.
Variable d2 : Device2.

Variable detectionForwardBBoxDataSize : Z -> Z -> DataType -> size_t.
Variable detectionForwardBBoxPermuteSize : bool -> Z -> Z -> DataType -> size_t.
Variable detectionForwardPreNMSSize : Z -> Z -> size_t.
Variable detectionForwardPostNMSSize : Z -> Z -> Z -> size_t.
Variable nextWorkspacePtr : ptr -> size_t -> ptr.

Variable stream : cudaStream_t.
Variables N C1 C2 : Z.
Variables shareLocation varianceEncodedInTarget : bool.
Variables backgroundLabelId numPredsPerClass numClasses topK keepTopK : Z.
Variables confidenceThreshold nmsThreshold : float.
Variable codeType : CodeTypeSSD.
Variables DT_BBOX DT_SCORE : DataType.
Variables locData priorData confData keepCount topDetections workspace : ptr.
Variables isNormalized confSigmoid : bool.
Variable scoreBits : Z.
Variable isBatchAgnostic : bool.

Local Abbreviation outcome1 :=
  (detectionInference Device1 run1 detectionForwardBBoxDataSize
     detectionForwardBBoxPermuteSize detectionForwardPreNMSSize
     detectionForwardPostNMSSize nextWorkspacePtr
     stream N C1 C2 shareLocation varianceEncodedInTarget backgroundLabelId
     numPredsPerClass numClasses topK keepTopK confidenceThreshold
     nmsThreshold codeType DT_BBOX locData priorData DT_SCORE confData
     keepCount topDetections workspace isNormalized confSigmoid scoreBits
     isBatchAgnostic (mkWorld d1 [])).

Local Abbreviation outcome2 :=
  (detectionInference Device2 run2 detectionForwardBBoxDataSize
     detectionForwardBBoxPermuteSize detectionForwardPreNMSSize
     detectionForwardPostNMSSize nextWorkspacePtr
     stream N C1 C2 shareLocation varianceEncodedInTarget backgroundLabelId
     numPredsPerClass numClasses topK keepTopK confidenceThreshold
     nmsThreshold codeType DT_BBOX locData priorData DT_SCORE confData
     keepCount topDetections workspace isNormalized confSigmoid scoreBits
     isBatchAgnostic (mkWorld d2 [])).

(** What a stage is launched with never depends on what earlier stages
    reported or did to the device: two invocations with the same arguments,
    on whatever devices and with whatever kernel behaviour, make the same
    launches position by position for as long as both go on, so one log of
    launches continues the other; and they make exactly the same launches
    when both return success. *)
Theorem launches_independent_of_results :
  ((exists t, calls_of outcome2 = calls_of outcome1 ++ t)
   \/ (exists t, calls_of outcome1 = calls_of outcome2 ++ t))
  /\ (fst outcome1 = STATUS_SUCCESS -> fst outcome2 = STATUS_SUCCESS ->
      calls_of outcome1 = calls_of outcome2).
Proof.
  split.
  - destruct (calls_prefix Device1 run1 detectionForwardBBoxDataSize
                detectionForwardBBoxPermuteSize detectionForwardPreNMSSize
                detectionForwardPostNMSSize nextWorkspacePtr
                stream N C1 C2 shareLocation varianceEncodedInTarget
                backgroundLabelId numPredsPerClass numClasses topK keepTopK
                confidenceThreshold nmsThreshold codeType DT_BBOX DT_SCORE
                locData priorData confData keepCount topDetections workspace
                isNormalized confSigmoid scoreBits isBatchAgnostic d1)
      as [r1 E1].
    destruct (calls_prefix Device2 run2 detectionForwardBBoxDataSize
                detectionForwardBBoxPermuteSize detectionForwardPreNMSSize
                detectionForwardPostNMSSize nextWorkspacePtr
                stream N C1 C2 shareLocation varianceEncodedInTarget
                backgroundLabelId numPredsPerClass numClasses topK keepTopK
                confidenceThreshold nmsThreshold codeType DT_BBOX DT_SCORE
                locData priorData confData keepCount topDetections workspace
                isNormalized confSigmoid scoreBits isBatchAgnostic d2)
      as [r2 E2].
    exact (prefixes_comparable _ _ _ _ _ E1 E2).
  - intros H1 H2.
    rewrite (calls_on_success Device1 run1 detectionForwardBBoxDataSize
               detectionForwardBBoxPermuteSize detectionForwardPreNMSSize
               detectionForwardPostNMSSize nextWorkspacePtr
               stream N C1 C2 shareLocation varianceEncodedInTarget
               backgroundLabelId numPredsPerClass numClasses topK keepTopK
               confidenceThreshold nmsThreshold codeType DT_BBOX DT_SCORE
               locData priorData confData keepCount topDetections workspace
               isNormalized confSigmoid scoreBits isBatchAgnostic d1 H1).
    rewrite (calls_on_success Device2 run2 detectionForwardBBoxDataSize
               detectionForwardBBoxPermuteSize detectionForwardPreNMSSize
               detectionForwardPostNMSSize nextWorkspacePtr
               stream N C1 C2 shareLocation varianceEncodedInTarget
               backgroundLabelId numPredsPerClass numClasses topK keepTopK
               confidenceThreshold nmsThreshold codeType DT_BBOX DT_SCORE
               locData priorData confData keepCount topDetections workspace
               isNormalized confSigmoid scoreBits isBatchAgnostic d2 H2).
    reflexivity.
Qed.

End TwoSettings.

(** ** The per-image detection count *)

Section KeepCount.

Import SpecModel.

Variable overlaps : Detection -> Detection -> bool.

Lemma insert_ranked_length (d : Detection) (l : list Detection) :
  length (insert_ranked d l) = S (length l).
Proof.
  induction l as [| e l IH]; simpl; [reflexivity |].
  destruct (ranks_before d e); simpl; [reflexivity | now rewrite IH].
Qed.

Lemma rank_length (l : list Detection) : length (rank l) = length l.
Proof.
  induction l as [| d l IH]; simpl; [reflexivity |].
  now rewrite insert_ranked_length, IH.
Qed.

Lemma greedy_length (topK : nat) (candidates kept : list Detection) :
  (length kept <= topK)%nat ->
  (length (greedy overlaps topK kept candidates) <= topK)%nat.
Proof.
  revert kept.
  induction candidates as [| c rest IH]; intros kept Hk; simpl;
    [assumption |].
  destruct (topK <=? length kept)%nat eqn:Hfull; [assumption |].
  apply Nat.leb_gt in Hfull.
  destruct (existsb (fun k => overlaps k c) kept).
  - now apply IH.
  - apply IH. rewrite length_app. simpl. lia.
Qed.

Lemma retained_length (topK : nat) (ranked : list (list Detection)) :
  (length (concat (allClassNMS_image overlaps topK ranked))
   <= length ranked * topK)%nat.
Proof.
  unfold allClassNMS_image.
  induction ranked as [| l ranked IH]; simpl; [lia |].
  rewrite length_app.
  pose proof (greedy_length topK l [] ltac:(simpl; lia)). lia.
Qed.

(** C7: for one image with [numClasses] classes, the count of valid
    detections that the gather writes to [keepCount] is at most [keepTopK]
    and at most [numClasses * topK], the number of entries the per-image
    sort can be handed. *)
Theorem keepCount_bounded (numClasses topK keepTopK : nat)
    (ranked : list (list Detection)) :
  length ranked = numClasses ->
  (fst (detect_image overlaps topK keepTopK ranked) <= keepTopK
   /\ fst (detect_image overlaps topK keepTopK ranked) <= numClasses * topK
   /\ length (snd (detect_image overlaps topK keepTopK ranked)) = keepTopK)%nat.
Proof.
  intro Hn. unfold detect_image, gatherTopDetections_image,
    sortScoresPerImage_image. simpl.
  rewrite length_app, length_map, repeat_length, length_firstn, rank_length.
  pose proof (retained_length topK ranked) as Hr. rewrite Hn in Hr.
  lia.
Qed.

End KeepCount.

(** ** The statements on actual numbers *)

Lemma align_up_ge (a : N) : (a <= Sample.align_up a)%N.
Proof.
  unfold Sample.align_up. destruct (a mod 256 =? 0)%N; [lia |].
  pose proof (N.mod_upper_bound a 256 ltac:(discriminate)). lia.
Qed.

Lemma next_ptr_advances (p s : N) : (p + s <= Sample.next_ptr p s)%N.
Proof. apply align_up_ge. Qed.

Example sample_run_shared_boxes :
  fst (Sample.invoke 99 true) = STATUS_SUCCESS
  /\ stages_of (Sample.invoke 99 true)
     = [Decode; PermuteScores; SortPerClass; NMS; SortPerImage; Gather].
Proof. split; reflexivity. Qed.

Example sample_run_boxes_per_class :
  fst (Sample.invoke 99 false) = STATUS_SUCCESS
  /\ stages_of (Sample.invoke 99 false)
     = [Decode; PermuteBoxes; PermuteScores; SortPerClass; NMS; SortPerImage;
        Gather].
Proof. split; reflexivity. Qed.

Example sample_run_failing_nms :
  fst (Sample.invoke 3 true) = STATUS_FAILURE
  /\ stages_of (Sample.invoke 3 true)
     = [Decode; PermuteScores; SortPerClass; NMS]
  /\ statuses_of (Sample.invoke 3 true)
     = [STATUS_SUCCESS; STATUS_SUCCESS; STATUS_SUCCESS; STATUS_BAD_PARAM].
Proof. repeat split; reflexivity. Qed.

Example sample_layout :
  layout Sample.bbox_data_size Sample.bbox_permute_size Sample.pre_nms_size
    Sample.post_nms_size Sample.next_ptr 65536%N 2 48 12 false 3 2 kFLOAT
    kHALF
  = mkLayout 65536%N 66048%N 66560%N 66816%N 67072%N 67328%N 67584%N.
Proof. reflexivity. Qed.

Example sample_top_two :
  SpecModel.detect_image Sample.never_overlaps 2 2 Sample.ranked_candidates
  = (2%nat, [Some Sample.det_a; Some Sample.det_b]).
Proof. reflexivity. Qed.

Example sample_suppressed :
  SpecModel.detect_image Sample.always_overlaps 2 4 Sample.ranked_candidates
  = (2%nat, [Some Sample.det_a; Some Sample.det_c; None; None]).
Proof. reflexivity. Qed.




Example sample_decode_count :
  exists c rest,
    calls_of (Sample.invoke 99 true) = c :: rest
    /\ decode_counts c = Some (2 * 4 * 1 * 4, 4, 1).
Proof. eexists. eexists. split; reflexivity. Qed.

Lemma keepCount_bounded_witness :
  length Sample.ranked_candidates = 2%nat
  /\ (fst (SpecModel.detect_image Sample.never_overlaps 1 5
             Sample.ranked_candidates) <= 5)%nat
  /\ (fst (SpecModel.detect_image Sample.never_overlaps 1 5
             Sample.ranked_candidates) <= 2 * 1)%nat.
Proof.
  split; [reflexivity |].
  destruct (keepCount_bounded Sample.never_overlaps 2 1 5
              Sample.ranked_candidates eq_refl) as (H1 & H2 & _).
  split; assumption.
Defined.

Lemma score_permute_launched :
  In Sample.score_permute_launch (calls_of (Sample.invoke 99 true)).
Proof. right. left. reflexivity. Qed.

Lemma nms_launched :
  In Sample.nms_launch (calls_of (Sample.invoke 99 true)).
Proof. do 3 right. left. reflexivity. Qed.

Lemma image_sort_launched :
  In Sample.image_sort_launch (calls_of (Sample.invoke 99 true)).
Proof. do 4 right. left. reflexivity. Qed.

Lemma score_buffers_alternate_witness :
  In Sample.image_sort_launch (calls_of (Sample.invoke 99 true))
  /\ score_index_buffers Sample.image_sort_launch
     = [(66304%N, 66560%N); (65792%N, 66048%N)]
  /\ score_index_buffers Sample.nms_launch
     = [(65792%N, 66048%N); (66304%N, 66560%N)].
Proof.
  split; [exact image_sort_launched |]. split.
  - exact (score_buffers_alternate nat (Sample.run_counting 99)
             Sample.bbox_data_size Sample.bbox_permute_size
             Sample.pre_nms_size Sample.post_nms_size Sample.next_ptr 7%N 2
             16 12 true false 0 4 3 2 5 float_one float_one CENTER_SIZE
             kFLOAT kHALF 1000%N 2000%N 3000%N 4000%N 5000%N 65536%N true
             false 8 false 0%nat Sample.image_sort_launch
             image_sort_launched).
  - exact (score_buffers_alternate nat (Sample.run_counting 99)
             Sample.bbox_data_size Sample.bbox_permute_size
             Sample.pre_nms_size Sample.post_nms_size Sample.next_ptr 7%N 2
             16 12 true false 0 4 3 2 5 float_one float_one CENTER_SIZE
             kFLOAT kHALF 1000%N 2000%N 3000%N 4000%N 5000%N 65536%N true
             false 8 false 0%nat Sample.nms_launch nms_launched).
Defined.

Lemma pointer_arguments_provenance_witness :
  In Sample.nms_launch (calls_of (Sample.invoke 99 true))
  /\ In 66304%N (pointer_args Sample.nms_launch)
  /\ In 66304%N
       [1000%N; 2000%N; 3000%N; 4000%N; 5000%N; 65536%N; 65792%N; 65792%N;
        66048%N; 66304%N; 66560%N; 66816%N].
Proof.
  assert (Hp : In 66304%N (pointer_args Sample.nms_launch)).
  { do 3 right. left. reflexivity. }
  split; [exact nms_launched |]. split; [exact Hp |].
  exact (pointer_arguments_provenance nat (Sample.run_counting 99)
           Sample.bbox_data_size Sample.bbox_permute_size
           Sample.pre_nms_size Sample.post_nms_size Sample.next_ptr 7%N 2
           16 12 true false 0 4 3 2 5 float_one float_one CENTER_SIZE
           kFLOAT kHALF 1000%N 2000%N 3000%N 4000%N 5000%N 65536%N true
           false 8 false 0%nat Sample.nms_launch 66304%N nms_launched Hp).
Defined.

Lemma permutation_and_nms_options_witness :
  In Sample.nms_launch (calls_of (Sample.invoke 99 true))
  /\ (forall f, nms_flags Sample.nms_launch = Some f -> f = (false, true)).
Proof.
  split; [exact nms_launched |].
  exact (proj2
    (permutation_and_nms_options nat (Sample.run_counting 99)
       Sample.bbox_data_size Sample.bbox_permute_size
       Sample.pre_nms_size Sample.post_nms_size Sample.next_ptr 7%N 2
       16 12 true false 0 4 3 2 5 float_one float_one CENTER_SIZE
       kFLOAT kHALF 1000%N 2000%N 3000%N 4000%N 5000%N 65536%N true
       false 8 false 0%nat Sample.nms_launch nms_launched)).
Defined.

Lemma sorts_get_bits_and_item_count_witness :
  In Sample.image_sort_launch (calls_of (Sample.invoke 99 true))
  /\ (forall n,
        items_per_image Sample.image_sort_launch = Some n ->
        n = int_mul 3 2 /\ in_int n /\ (in_int (3 * 2) -> n = 3 * 2)).
Proof.
  split; [exact image_sort_launched |].
  exact (proj1 (proj2
    (sorts_get_bits_and_item_count nat (Sample.run_counting 99)
       Sample.bbox_data_size Sample.bbox_permute_size
       Sample.pre_nms_size Sample.post_nms_size Sample.next_ptr 7%N 2
       16 12 true false 0 4 3 2 5 float_one float_one CENTER_SIZE
       kFLOAT kHALF 1000%N 2000%N 3000%N 4000%N 5000%N 65536%N true
       false 8 false 0%nat Sample.image_sort_launch image_sort_launched))).
Defined.

Lemma sized_regions_disjoint_witness :
  (forall p s, (p + s <= Sample.next_ptr p s)%N)
  /\ StronglySorted precedes
       (sized_regions Sample.bbox_data_size Sample.bbox_permute_size
          Sample.pre_nms_size Sample.post_nms_size Sample.next_ptr 65536%N
          2 48 12 false 3 2 kFLOAT kHALF).
Proof.
  split; [exact next_ptr_advances |].
  exact (proj1
    (sized_regions_disjoint Sample.bbox_data_size Sample.bbox_permute_size
       Sample.pre_nms_size Sample.post_nms_size Sample.next_ptr 2 48 12
       false 3 2 kFLOAT kHALF 65536%N next_ptr_advances)).
Defined.

Example sample_regions :
  sized_regions Sample.bbox_data_size Sample.bbox_permute_size
    Sample.pre_nms_size Sample.post_nms_size Sample.next_ptr 65536%N 2 48 12
    false 3 2 kFLOAT kHALF
  = [(65536%N, 384%N); (66048%N, 384%N); (66560%N, 48%N); (66816%N, 96%N);
     (67072%N, 24%N); (67328%N, 48%N)].
Proof. reflexivity. Qed.

(** With 256-byte alignment the pointers themselves move with the score
    type only once a halved size falls into another alignment step. *)
Example sample_layout_same_pointers :
  layout Sample.bbox_data_size Sample.bbox_permute_size Sample.pre_nms_size
    Sample.post_nms_size Sample.next_ptr 65536%N 2 48 12 false 3 2 kFLOAT
    kHALF
  = layout Sample.bbox_data_size Sample.bbox_permute_size Sample.pre_nms_size
      Sample.post_nms_size Sample.next_ptr 65536%N 2 48 12 false 3 2 kFLOAT
      kFLOAT.
Proof. reflexivity. Qed.

Example sample_layout_moved_pointers :
  indices
    (layout Sample.bbox_data_size Sample.bbox_permute_size
       Sample.pre_nms_size Sample.post_nms_size Sample.next_ptr 65536%N 2 48
       200 false 3 2 kFLOAT kHALF) = 67584%N
  /\ indices
       (layout Sample.bbox_data_size Sample.bbox_permute_size
          Sample.pre_nms_size Sample.post_nms_size Sample.next_ptr 65536%N 2
          48 200 false 3 2 kFLOAT kFLOAT) = 68352%N.
Proof. split; reflexivity. Qed.
